(** * gpt2_jax: the configuration module and the GPT-2 forward pass

    A shallow embedding of [src/gpt2_jax/config.py] and
    [src/gpt2_jax/model.py].

    - Python's run-time failures (an unbound name, a missing attribute, a
      call with the wrong number of arguments, a failed [assert], a shape
      that does not broadcast) are values of [exn], and every Python
      function is a function into [result].
    - A [jnp] array is its shape together with its indexing function.
    - A float is an exact real number or one of the three IEEE specials
      [+inf], [-inf], [NaN]: rounding, overflow and the sign of zero are not
      modelled.
    - An attribute of the configuration is read where the source first
      reads it in a function; its later reads there reuse the value.
    - The [flax.linen] and [jax.numpy] functions the source calls ([Dense],
      [LayerNorm], [Dropout], [Embed], [softmax], the mask helpers,
      [arange], [take], [einsum], [reshape], [where]) are written out
      after their library definitions, with the exceptions they raise:
      a parameter that is present is checked against its initializer, so
      [Dense] refuses an empty kernel and [Embed] a table that is not of
      floats. *)

From Stdlib Require Import Reals Lra Lia ZArith List String Bool DecimalString.
From stdpp Require Import gmap strings.
Import ListNotations.

Local Open Scope string_scope.
Local Open Scope nat_scope.

(* ===================================================================== *)
(** ** Python: exceptions and results *)
(* ===================================================================== *)

Inductive exn : Type :=
| NameError (name : string)
| AttributeError (attr : string)
| TypeError (msg : string)
| ValueError (msg : string)
| IndexError (msg : string)
| AssertionError
| ZeroDivisionError
| ShapeError (op : string)
| ScopeParamNotFoundError (path : list string)
| ScopeParamShapeError (path : list string)
| InvalidRngError.

Inductive result (A : Type) : Type :=
| Ok (a : A)
| Raise (e : exn).
Arguments Ok {A} a.
Arguments Raise {A} e.

#[global] Instance result_ret : MRet result := fun A a => Ok a.
#[global] Instance result_bind : MBind result := fun A B f m =>
  match m with
  | Ok a => f a
  | Raise e => Raise e
  end.

(** [assert c] *)
Definition assert_ (c : bool) : result unit :=
  if c then Ok tt else Raise AssertionError.

Definition raises {A} (r : result A) : Prop := exists e, r = Raise e.

(* ===================================================================== *)
(** ** Floats *)
(* ===================================================================== *)

Inductive xreal : Type :=
| Fin (r : R)
| PInf
| NInf
| NaN.

Definition Rsign (r : R) : comparison :=
  if Rlt_dec r 0 then Lt else if Rlt_dec 0 r then Gt else Eq.

Definition xneg (x : xreal) : xreal :=
  match x with
  | Fin r => Fin (- r)
  | PInf => NInf
  | NInf => PInf
  | NaN => NaN
  end.

Definition xadd (x y : xreal) : xreal :=
  match x, y with
  | NaN, _ | _, NaN => NaN
  | Fin a, Fin b => Fin (a + b)
  | PInf, NInf | NInf, PInf => NaN
  | PInf, _ | _, PInf => PInf
  | NInf, _ | _, NInf => NInf
  end.

Definition xsub (x y : xreal) : xreal := xadd x (xneg y).

Definition signed_inf (c : comparison) : xreal :=
  match c with
  | Gt => PInf
  | Lt => NInf
  | Eq => NaN
  end.

Definition xmul (x y : xreal) : xreal :=
  match x, y with
  | NaN, _ | _, NaN => NaN
  | Fin a, Fin b => Fin (a * b)
  | Fin a, PInf | PInf, Fin a => signed_inf (Rsign a)
  | Fin a, NInf | NInf, Fin a => signed_inf (Rsign (- a))
  | PInf, PInf | NInf, NInf => PInf
  | PInf, NInf | NInf, PInf => NInf
  end.

Definition xdiv (x y : xreal) : xreal :=
  match x, y with
  | NaN, _ | _, NaN => NaN
  | Fin a, Fin b =>
      if Req_dec_T b 0 then signed_inf (Rsign a) else Fin (a / b)
  | Fin _, (PInf | NInf) => Fin 0
  | PInf, Fin b => if Rlt_dec b 0 then NInf else PInf
  | NInf, Fin b => if Rlt_dec b 0 then PInf else NInf
  | (PInf | NInf), (PInf | NInf) => NaN
  end.

Definition xexp (x : xreal) : xreal :=
  match x with
  | Fin r => Fin (exp r)
  | PInf => PInf
  | NInf => Fin 0
  | NaN => NaN
  end.

Definition xsqrt (x : xreal) : xreal :=
  match x with
  | Fin r => if Rlt_dec r 0 then NaN else Fin (sqrt r)
  | PInf => PInf
  | NInf | NaN => NaN
  end.

Definition xsin (x : xreal) : xreal :=
  match x with
  | Fin r => Fin (sin r)
  | _ => NaN
  end.

Definition xcos (x : xreal) : xreal :=
  match x with
  | Fin r => Fin (cos r)
  | _ => NaN
  end.

(** [jnp.maximum]: a NaN operand gives NaN. *)
Definition xmax (x y : xreal) : xreal :=
  match x, y with
  | NaN, _ | _, NaN => NaN
  | PInf, _ | _, PInf => PInf
  | NInf, z | z, NInf => z
  | Fin a, Fin b => Fin (Rmax a b)
  end.

(** Truth value of a float used as a condition: non-zero. *)
Definition truthy (x : xreal) : bool :=
  match x with
  | Fin r => if Req_dec_T r 0 then false else true
  | _ => true
  end.

Definition of_bool (b : bool) : xreal := if b then Fin 1 else Fin 0.
Definition of_Z (z : Z) : xreal := Fin (IZR z).
Definition of_nat (n : nat) : xreal := Fin (INR n).

Definition is_fin (x : xreal) : Prop := exists r, x = Fin r.

(** Sum of [f 0 .. f (n-1)], accumulated from zero as a reduction does. *)
Definition xsum (n : nat) (f : nat -> xreal) : xreal :=
  fold_left (fun acc i => xadd acc (f i)) (seq 0 n) (Fin 0).

(** dtypes of the arrays the program handles. *)
Inductive DType : Type := float32 | int16 | int32 | bool_.

Definition Rtrunc (r : R) : Z :=
  if Rlt_dec r 0 then (- Int_part (- r))%Z else Int_part r.

Definition clampZ (lo hi z : Z) : Z := Z.max lo (Z.min hi z).

(** Conversion of a float to a signed integer of [bits] bits: truncation
    toward zero, out-of-range values saturate, NaN becomes 0. *)
Definition to_int (bits : Z) (x : xreal) : Z :=
  let lo := (- 2 ^ (bits - 1))%Z in
  let hi := (2 ^ (bits - 1) - 1)%Z in
  match x with
  | Fin r => clampZ lo hi (Rtrunc r)
  | PInf => hi
  | NInf => lo
  | NaN => 0%Z
  end.

(** [x.astype(d)] on a float value, the result kept as a float value. *)
Definition astype (d : DType) (x : xreal) : xreal :=
  match d with
  | float32 => x
  | int16 => of_Z (to_int 16 x)
  | int32 => of_Z (to_int 32 x)
  | bool_ => of_bool (truthy x)
  end.

(* ===================================================================== *)
(** ** Arrays *)
(* ===================================================================== *)

Record ndarray (A : Type) : Type := NDArray {
  shape : list nat;
  item : list nat -> A
}.
Arguments NDArray {A} shape item.
Arguments shape {A} _.
Arguments item {A} _ _.

Definition ndim {A} (a : ndarray A) : nat := length (shape a).

(** Number of elements. *)
Definition size_of (s : list nat) : nat := fold_right Nat.mul 1 s.

Definition amap {A B} (f : A -> B) (a : ndarray A) : ndarray B :=
  NDArray (shape a) (fun i => f (item a i)).

Definition full {A} (s : list nat) (x : A) : ndarray A :=
  NDArray s (fun _ => x).

(** NumPy broadcasting, the shapes aligned at their last axis. *)
Definition bdim (d1 d2 : nat) : option nat :=
  if d1 =? d2 then Some d1
  else if d1 =? 1 then Some d2
  else if d2 =? 1 then Some d1
  else None.

Fixpoint bshape_rev (r1 r2 : list nat) : option (list nat) :=
  match r1, r2 with
  | [], r | r, [] => Some r
  | d1 :: t1, d2 :: t2 =>
      match bdim d1 d2, bshape_rev t1 t2 with
      | Some d, Some t => Some (d :: t)
      | _, _ => None
      end
  end.

Definition broadcast_shapes (s1 s2 : list nat) : option (list nat) :=
  match bshape_rev (rev s1) (rev s2) with
  | Some r => Some (rev r)
  | None => None
  end.

(** The index into an operand of shape [s] for the index [idx] of the
    broadcast result: leading axes dropped, axes of size 1 read at 0. *)
Definition bindex (s idx : list nat) : list nat :=
  zip_with (fun d i => if d =? 1 then 0 else i) s
           (drop (length idx - length s) idx).

Definition broadcast2 {A B C} (op : string) (f : A -> B -> C)
    (a : ndarray A) (b : ndarray B) : result (ndarray C) :=
  match broadcast_shapes (shape a) (shape b) with
  | Some s =>
      Ok (NDArray s (fun i =>
            f (item a (bindex (shape a) i)) (item b (bindex (shape b) i))))
  | None => Raise (ShapeError op)
  end.

(** [jnp.broadcast_to(a, s)]: [a] must broadcast to exactly [s]. *)
Definition broadcast_to {A} (a : ndarray A) (s : list nat)
    : result (ndarray A) :=
  match broadcast_shapes (shape a) s with
  | Some s' =>
      if decide (s' = s)
      then Ok (NDArray s (fun i => item a (bindex (shape a) i)))
      else Raise (ShapeError "broadcast_to")
  | None => Raise (ShapeError "broadcast_to")
  end.

(** [jnp.expand_dims(a, axis)] for one axis, negative axes counted from
    the end of the result. *)
Definition expand_dims {A} (axis : Z) (a : ndarray A) : result (ndarray A) :=
  let n := Z.of_nat (ndim a) in
  let p := if (axis <? 0)%Z then (n + 1 + axis)%Z else axis in
  if ((0 <=? p) && (p <=? n))%Z then
    let p := Z.to_nat p in
    Ok (NDArray (take p (shape a) ++ 1 :: drop p (shape a))
                (fun i => item a (delete p i)))
  else Raise (ValueError "axis out of bounds").

(** [jnp.arange(0, n)] as integers. *)
Definition arange (n : nat) : ndarray Z :=
  NDArray [n] (fun i => Z.of_nat (nth 0 i 0)).

(** The number of indices [start, start + step, ...] below [n]: the
    length of the slice [start::step] of an axis of size [n]. *)
Definition slice_len (n start step : nat) : nat :=
  (n - start + step - 1) / step.

(** The values [0, step, 2 step, ...] below [n], as [d]. *)
Definition arange_values (n step : nat) (d : DType) : ndarray xreal :=
  NDArray [slice_len n 0 step]
          (fun i => astype d (of_nat (step * nth 0 i 0))).

(** [jnp.arange(0, n, step, dtype=d)]: those values; [dtype=bool] is
    refused with [TypeError]. *)
Definition arange_step (n step : nat) (d : DType)
    : result (ndarray xreal) :=
  match d with
  | bool_ => Raise (TypeError "arange: dtype bool is not supported")
  | _ => Ok (arange_values n step d)
  end.

(** [a[jnp.newaxis, :]] *)
Definition newaxis0 {A} (a : ndarray A) : ndarray A :=
  NDArray (1 :: shape a) (fun i => item a (drop 1 i)).

(** [jnp.einsum('ij,kl->jl', a, b)]: [i] and [k] are summed out. *)
Definition einsum_ij_kl_jl (a b : ndarray xreal) : result (ndarray xreal) :=
  match shape a, shape b with
  | [ni; nj], [nk; nl] =>
      Ok (NDArray [nj; nl] (fun idx =>
            let j := nth 0 idx 0 in
            let l := nth 1 idx 0 in
            xsum ni (fun i => xsum nk (fun k =>
              xmul (item a [i; j]) (item b [k; l])))))
  | _, _ => Raise (ValueError "einsum: operand rank")
  end.

(** [pe.at[:, :, start::step].set(val)] on a 3-dimensional [pe]: [val] is
    broadcast to the shape of the slice. *)
Definition at_set_stride (start step : nat) (pe val : ndarray xreal)
    : result (ndarray xreal) :=
  match shape pe with
  | [nb; ns; ne] =>
      v ← broadcast_to val [nb; ns; slice_len ne start step];
      Ok (NDArray (shape pe) (fun idx =>
            let c := nth 2 idx 0 in
            if (start <=? c) && ((c - start) mod step =? 0)
            then item v [nth 0 idx 0; nth 1 idx 0; (c - start) / step]
            else item pe idx))
  | _ => Raise (ValueError "at[].set: operand rank")
  end.

(** Row-major position of an index, and back. *)
Fixpoint ravel (s idx : list nat) : nat :=
  match s, idx with
  | _ :: s', i :: idx' => i * size_of s' + ravel s' idx'
  | _, _ => 0
  end.

Fixpoint unravel (s : list nat) (n : nat) : list nat :=
  match s with
  | [] => []
  | _ :: s' => n / size_of s' :: unravel s' (n mod size_of s')
  end.

(** [a.reshape(-1, d1, .., dk)]: the leading dimension is inferred. *)
Definition reshape_infer {A} (dims : list Z) (a : ndarray A)
    : result (ndarray A) :=
  if forallb (fun d => (0 <=? d)%Z) dims then
    let tl := map Z.to_nat dims in
    let known := size_of tl in
    let total := size_of (shape a) in
    if (known =? 0) || negb (total mod known =? 0)
    then Raise (TypeError "cannot reshape array")
    else
      let s := total / known :: tl in
      Ok (NDArray s (fun idx => item a (unravel (shape a) (ravel s idx))))
  else Raise (TypeError "cannot reshape array").

(** [jnp.where(cond, a, y)] with a scalar [y]; a float [cond] counts as
    true where it is non-zero. *)
Definition where_ (cond a : ndarray xreal) (y : xreal)
    : result (ndarray xreal) :=
  broadcast2 "where" (fun c x => if truthy c then x else y) cond a.

(** Maximum of [f 0 .. f (n-1)] starting from [-inf]. *)
Definition xmaximum (n : nat) (f : nat -> xreal) : xreal :=
  fold_left (fun acc i => xmax acc (f i)) (seq 0 n) NInf.

(** [jax.nn.softmax(a, axis=-1)]:
    [exp(a - max a) / sum (exp(a - max a))] along the last axis. *)
Definition softmax_row (n : nat) (row : nat -> xreal) (j : nat) : xreal :=
  let x_max := xmaximum n row in
  let unnormalized := fun c => xexp (xsub (row c) x_max) in
  xdiv (unnormalized j) (xsum n unnormalized).

Definition softmax (a : ndarray xreal) : result (ndarray xreal) :=
  match rev (shape a) with
  | [] => Raise (ValueError "axis -1 is out of bounds")
  | n :: _ =>
      Ok (NDArray (shape a) (fun idx =>
            let pre := removelast idx in
            softmax_row n (fun c => item a (pre ++ [c])) (List.last idx 0)))
  end.

(** ['...qhd,...khd->...hqk'] on 4-dimensional operands. *)
Definition einsum_qhd_khd_hqk (q k : ndarray xreal)
    : result (ndarray xreal) :=
  match shape q, shape k with
  | [Bq; Sq; Hq; Dq], [Bk; Sk; Hk; Dk] =>
      match bdim Bq Bk with
      | Some B =>
          if (Hq =? Hk) && (Dq =? Dk) then
            Ok (NDArray [B; Hq; Sq; Sk] (fun idx =>
                  let b := nth 0 idx 0 in
                  let h := nth 1 idx 0 in
                  let i := nth 2 idx 0 in
                  let j := nth 3 idx 0 in
                  xsum Dq (fun d =>
                    xmul (item q [if Bq =? 1 then 0 else b; i; h; d])
                         (item k [if Bk =? 1 then 0 else b; j; h; d]))))
          else Raise (ValueError "einsum: operand sizes")
      | None => Raise (ValueError "einsum: operand sizes")
      end
  | _, _ => Raise (ValueError "einsum: operand rank")
  end.

(** ['...hqk,...khd->...qhd'] on 4-dimensional operands. *)
Definition einsum_hqk_khd_qhd (att v : ndarray xreal)
    : result (ndarray xreal) :=
  match shape att, shape v with
  | [Ba; Ha; Sq; Sk], [Bv; Sv; Hv; Dv] =>
      match bdim Ba Bv with
      | Some B =>
          if (Ha =? Hv) && (Sk =? Sv) then
            Ok (NDArray [B; Sq; Ha; Dv] (fun idx =>
                  let b := nth 0 idx 0 in
                  let i := nth 1 idx 0 in
                  let h := nth 2 idx 0 in
                  let d := nth 3 idx 0 in
                  xsum Sk (fun j =>
                    xmul (item att [if Ba =? 1 then 0 else b; h; i; j])
                         (item v [if Bv =? 1 then 0 else b; j; h; d]))))
          else Raise (ValueError "einsum: operand sizes")
      | None => Raise (ValueError "einsum: operand sizes")
      end
  | _, _ => Raise (ValueError "einsum: operand rank")
  end.

(* ===================================================================== *)
(** ** Python values, name lookup and calls *)
(* ===================================================================== *)

#[warnings="-register-all"] Inductive pyval : Type :=
| PNone
| PBool (b : bool)
| PInt (z : Z)
| PFloat (r : R)
| PStr (s : string)
| PList (l : list pyval)
| PTuple (l : list pyval)
| PDType (d : DType)
| PClass (name : string)
| PModule (name : string)
| PFunction (name : string)
| PArray (a : ndarray xreal)
| PIntArray (a : ndarray Z).

Definition as_int (v : pyval) : result Z :=
  match v with
  | PInt z => Ok z
  | PBool b => Ok (Z.b2z b)
  | _ => Raise (TypeError "an integer is required")
  end.

Definition as_float (v : pyval) : result R :=
  match v with
  | PFloat r => Ok r
  | PInt z => Ok (IZR z)
  | PBool b => Ok (IZR (Z.b2z b))
  | _ => Raise (TypeError "a number is required")
  end.

Definition as_dtype (v : pyval) : result DType :=
  match v with
  | PDType d => Ok d
  | _ => Raise (TypeError "cannot interpret value as a data type")
  end.

(** A Python [int] used as an array dimension. *)
Definition as_dim (z : Z) : result nat :=
  if (z <? 0)%Z then Raise (ValueError "negative dimension")
  else Ok (Z.to_nat z).

(** A value whose [.ndim] and [.shape] are read. *)
Definition as_array (v : pyval) : result (ndarray xreal) :=
  match v with
  | PArray a => Ok a
  | PIntArray a => Ok (amap of_Z a)
  | _ => Raise (AttributeError "ndim")
  end.

(** Truth value of an object. *)
Definition as_bool (v : pyval) : result bool :=
  match v with
  | PNone => Ok false
  | PBool b => Ok b
  | PInt z => Ok (negb (z =? 0)%Z)
  | PStr s => Ok (negb (String.eqb s ""))
  | PList l | PTuple l => Ok (negb (length l =? 0))
  | PArray _ | PIntArray _ =>
      Raise (ValueError "the truth value of an array is ambiguous")
  | _ => Ok true
  end.

(** Binding of the positional arguments of a call to the parameters of a
    function none of which has a default: too few or too many arguments
    raise [TypeError]. *)
Definition bind_positional (fname : string) (params : list string)
    (args : list pyval) : result (list pyval) :=
  if length args <? length params
  then Raise (TypeError (fname ++ "() missing required positional arguments"))
  else if length params <? length args
  then Raise (TypeError (fname ++ "() takes fewer positional arguments"))
  else Ok args.

(** [a, b = v] *)
Definition unpack2 (v : pyval) : result (pyval * pyval) :=
  match v with
  | PTuple [a; b] | PList [a; b] => Ok (a, b)
  | PTuple l | PList l =>
      if length l <? 2
      then Raise (ValueError "not enough values to unpack (expected 2)")
      else Raise (ValueError "too many values to unpack (expected 2)")
  | _ => Raise (TypeError "cannot unpack non-iterable object")
  end.

(** The scope a class body runs in: its own namespace, then the globals
    of the module, then the builtins. *)
Record scope : Type := Scope {
  locals : gmap string pyval;
  globals : gmap string pyval
}.

Definition builtins : gmap string pyval :=
  list_to_map [("int", PClass "int"); ("float", PClass "float");
               ("str", PClass "str"); ("bool", PClass "bool");
               ("list", PClass "list"); ("range", PClass "range")].

Definition expr : Type := scope -> result pyval.

Definition name (x : string) : expr := fun sc =>
  match locals sc !! x with
  | Some v => Ok v
  | None =>
      match globals sc !! x with
      | Some v => Ok v
      | None =>
          match builtins !! x with
          | Some v => Ok v
          | None => Raise (NameError x)
          end
      end
  end.

Definition const (v : pyval) : expr := fun _ => Ok v.

(** Attributes of the modules the configuration mentions. *)
Definition py_getattr (v : pyval) (a : string) : result pyval :=
  match v with
  | PModule "dataclasses" =>
      if String.eqb a "dataclass" then Ok (PFunction "dataclasses.dataclass")
      else Raise (AttributeError a)
  | PModule "jax.numpy" =>
      if String.eqb a "int16" then Ok (PDType int16)
      else if String.eqb a "float32" then Ok (PDType float32)
      else Raise (AttributeError a)
  | _ => Raise (AttributeError a)
  end.

Definition attribute (e : expr) (a : string) : expr := fun sc =>
  v ← e sc; py_getattr v a.

(** [e1 // e2] on integers. *)
Definition floordiv (e1 e2 : expr) : expr := fun sc =>
  v1 ← e1 sc; v2 ← e2 sc;
  match v1, v2 with
  | PInt a, PInt b =>
      if (b =? 0)%Z then Raise ZeroDivisionError else Ok (PInt (a / b))
  | _, _ => Raise (TypeError "unsupported operand type(s) for //")
  end.

(** [e1[e2]] on a generic class. *)
Definition subscript (e1 e2 : expr) : expr := fun sc =>
  v1 ← e1 sc; v2 ← e2 sc;
  match v1 with
  | PClass "list" => Ok (PClass "list")
  | PClass "typing.List" => Ok (PClass "typing.List")
  | _ => Raise (TypeError "object is not subscriptable")
  end.

(** [target: annotation = value] in a class body: the value is computed
    and bound, then the annotation is computed. *)
Record ann_assign : Type := AnnAssign {
  target : string;
  annotation : expr;
  value : expr
}.

Definition exec_ann_assign (s : ann_assign) (sc : scope) : result scope :=
  v ← value s sc;
  let sc' := Scope (<[target s := v]> (locals sc)) (globals sc) in
  _ ← annotation s sc';
  Ok sc'.

Fixpoint exec_body (body : list ann_assign) (sc : scope) : result scope :=
  match body with
  | [] => Ok sc
  | s :: rest => sc' ← exec_ann_assign s sc; exec_body rest sc'
  end.

(** [dataclasses.dataclass]: a field whose default is a list is refused. *)
Definition dataclass (fields : list string) (ns : gmap string pyval)
    : result (gmap string pyval) :=
  if forallb (fun f => match ns !! f with
                       | Some (PList _) => false
                       | _ => true
                       end) fields
  then Ok ns
  else Raise (ValueError "mutable default <class 'list'> for field").

(* ===================================================================== *)
(** ** config.py *)
(* ===================================================================== *)

Definition int_ (z : Z) : expr := const (PInt z).
Definition float_ (r : R) : expr := const (PFloat r).
Definition str_ (s : string) : expr := const (PStr s).

(** The body of [class Config], statement by statement. *)
Definition Config_body : list ann_assign := [
  AnnAssign "vocab_size" (name "int") (int_ 8000);
  AnnAssign "unk_id" (name "int") (int_ 0);
  AnnAssign "bos_id" (name "int") (int_ 1);
  AnnAssign "eos_id" (name "int") (int_ 2);
  AnnAssign "pad_id" (name "int") (int_ 3);
  AnnAssign "max_len" (name "int") (int_ 256);
  AnnAssign "embed_dim" (name "int") (int_ 256);
  AnnAssign "id_dtype" (name "Any") (attribute (name "jnp") "int16");
  AnnAssign "dtype" (name "Any") (attribute (name "jnp") "float32");
  AnnAssign "num_heads" (name "int") (int_ 32);
  AnnAssign "num_layers" (name "int") (int_ 14);
  AnnAssign "q_dim" (name "int")
            (floordiv (name "embed_dim") (name "num_heads"));
  AnnAssign "v_dim" (name "int")
            (floordiv (name "embed_dim") (name "num_heads"));
  AnnAssign "ff_dim" (name "int") (int_ 512);
  AnnAssign "dropout_rate" (name "float") (float_ (1 / 10));
  AnnAssign "special_ids" (subscript (name "List") (name "int"))
            (const (PList [PInt 0; PInt 1; PInt 2; PInt 3]));
  AnnAssign "special_tokens" (subscript (name "List") (name "str"))
            (const (PList [PStr "<unk>"; PStr "<s>"; PStr "</s>";
                           PStr "<pad>"]));
  AnnAssign "seed" (name "int") (int_ 42);
  AnnAssign "batch_size" (name "int") (int_ 256);
  AnnAssign "learning_rate" (name "float") (float_ (1 / 100));
  AnnAssign "warmup_steps" (name "int") (int_ 500);
  AnnAssign "num_epochs" (name "int") (int_ 20);
  AnnAssign "save_ckpt_every_epochs" (name "int") (int_ 1);
  AnnAssign "restore_checkpoints" (name "bool") (const (PBool true));
  AnnAssign "ckpt_prefix" (name "str") (str_ "completion_ckpt_");
  AnnAssign "ckpt_dir" (name "str")
            (str_ "/content/drive/My Drive/checkpoints/completion/");
  AnnAssign "spm_model" (name "str")
            (str_ "/content/drive/MyDrive/wiki40b_ja/wiki40b_ja_test.model");
  AnnAssign "train_text" (name "str")
            (str_ "/content/drive/MyDrive/wiki40b_ja/wiki40b_ja_test.txt")
].

(** The fields [Config] declares. *)
Definition Config_fields : list string := map target Config_body.

(** Running the module with the globals [g]: the decorator expression,
    the class body, then the decorator applied to the class.  The result
    is the namespace of the class [Config]. *)
Definition exec_config_py (g : gmap string pyval)
    : result (gmap string pyval) :=
  let sc := Scope ∅ g in
  _ ← attribute (name "dataclasses") "dataclass" sc;
  sc' ← exec_body Config_body sc;
  dataclass Config_fields (locals sc').

(** The globals of [config.py] at the class statement: its one import,
    [import dataclasses]. *)
Definition config_globals : gmap string pyval :=
  {[ "dataclasses" := PModule "dataclasses" ]}.

Definition config_py : result (gmap string pyval) :=
  exec_config_py config_globals.

(** The imports the class body presupposes, added one after the other:
    [from jax import numpy as jnp], then [Any] and [List] of [typing]. *)
Definition with_jnp : gmap string pyval :=
  <["jnp" := PModule "jax.numpy"]> config_globals.
Definition with_jnp_Any : gmap string pyval :=
  <["Any" := PClass "typing.Any"]> with_jnp.
Definition with_jnp_Any_List : gmap string pyval :=
  <["List" := PClass "typing.List"]> with_jnp_Any.

(** An instance of [Config]: one value for each declared field. *)
Record Config : Type := {
  vocab_size : Z;
  unk_id : Z;
  bos_id : Z;
  eos_id : Z;
  pad_id : Z;
  max_len : Z;
  embed_dim : Z;
  id_dtype : DType;
  dtype : DType;
  num_heads : Z;
  num_layers : Z;
  q_dim : Z;
  v_dim : Z;
  ff_dim : Z;
  dropout_rate : R;
  special_ids : list Z;
  special_tokens : list string;
  seed : Z;
  batch_size : Z;
  learning_rate : R;
  warmup_steps : Z;
  num_epochs : Z;
  save_ckpt_every_epochs : Z;
  restore_checkpoints : bool;
  ckpt_prefix : string;
  ckpt_dir : string;
  spm_model : string;
  train_text : string
}.

(** The attribute dictionary of an instance. *)
Definition Config_dict (c : Config) : gmap string pyval :=
  list_to_map [
    ("vocab_size", PInt (vocab_size c));
    ("unk_id", PInt (unk_id c));
    ("bos_id", PInt (bos_id c));
    ("eos_id", PInt (eos_id c));
    ("pad_id", PInt (pad_id c));
    ("max_len", PInt (max_len c));
    ("embed_dim", PInt (embed_dim c));
    ("id_dtype", PDType (id_dtype c));
    ("dtype", PDType (dtype c));
    ("num_heads", PInt (num_heads c));
    ("num_layers", PInt (num_layers c));
    ("q_dim", PInt (q_dim c));
    ("v_dim", PInt (v_dim c));
    ("ff_dim", PInt (ff_dim c));
    ("dropout_rate", PFloat (dropout_rate c));
    ("special_ids", PList (map PInt (special_ids c)));
    ("special_tokens", PList (map PStr (special_tokens c)));
    ("seed", PInt (seed c));
    ("batch_size", PInt (batch_size c));
    ("learning_rate", PFloat (learning_rate c));
    ("warmup_steps", PInt (warmup_steps c));
    ("num_epochs", PInt (num_epochs c));
    ("save_ckpt_every_epochs", PInt (save_ckpt_every_epochs c));
    ("restore_checkpoints", PBool (restore_checkpoints c));
    ("ckpt_prefix", PStr (ckpt_prefix c));
    ("ckpt_dir", PStr (ckpt_dir c));
    ("spm_model", PStr (spm_model c));
    ("train_text", PStr (train_text c))
  ].

(** [config.a] *)
Definition getattr (config : Config) (a : string) : result pyval :=
  match Config_dict config !! a with
  | Some v => Ok v
  | None => Raise (AttributeError a)
  end.

Definition attr_int (config : Config) (a : string) : result Z :=
  v ← getattr config a; as_int v.

Definition attr_float (config : Config) (a : string) : result R :=
  v ← getattr config a; as_float v.

Definition attr_dtype (config : Config) (a : string) : result DType :=
  v ← getattr config a; as_dtype v.

(** [Config()]: every field takes the default the class body bound. *)
Definition default (ns : gmap string pyval) (a : string) : result pyval :=
  match ns !! a with
  | Some v => Ok v
  | None => Raise (TypeError ("__init__() missing argument " ++ a))
  end.

Definition as_str (v : pyval) : result string :=
  match v with
  | PStr s => Ok s
  | _ => Raise (TypeError "a string is required")
  end.

Fixpoint as_list {A} (f : pyval -> result A) (l : list pyval)
    : result (list A) :=
  match l with
  | [] => Ok []
  | v :: l' => a ← f v; r ← as_list f l'; Ok (a :: r)
  end.

Definition as_list_of {A} (f : pyval -> result A) (v : pyval)
    : result (list A) :=
  match v with
  | PList l => as_list f l
  | _ => Raise (TypeError "a list is required")
  end.

Definition as_flag (v : pyval) : result bool :=
  match v with
  | PBool b => Ok b
  | _ => Raise (TypeError "a bool is required")
  end.

Definition Config_new (ns : gmap string pyval) : result Config :=
  a1 ← default ns "vocab_size" ≫= as_int;
  a2 ← default ns "unk_id" ≫= as_int;
  a3 ← default ns "bos_id" ≫= as_int;
  a4 ← default ns "eos_id" ≫= as_int;
  a5 ← default ns "pad_id" ≫= as_int;
  a6 ← default ns "max_len" ≫= as_int;
  a7 ← default ns "embed_dim" ≫= as_int;
  a8 ← default ns "id_dtype" ≫= as_dtype;
  a9 ← default ns "dtype" ≫= as_dtype;
  a10 ← default ns "num_heads" ≫= as_int;
  a11 ← default ns "num_layers" ≫= as_int;
  a12 ← default ns "q_dim" ≫= as_int;
  a13 ← default ns "v_dim" ≫= as_int;
  a14 ← default ns "ff_dim" ≫= as_int;
  a15 ← default ns "dropout_rate" ≫= as_float;
  a16 ← default ns "special_ids" ≫= as_list_of as_int;
  a17 ← default ns "special_tokens" ≫= as_list_of as_str;
  a18 ← default ns "seed" ≫= as_int;
  a19 ← default ns "batch_size" ≫= as_int;
  a20 ← default ns "learning_rate" ≫= as_float;
  a21 ← default ns "warmup_steps" ≫= as_int;
  a22 ← default ns "num_epochs" ≫= as_int;
  a23 ← default ns "save_ckpt_every_epochs" ≫= as_int;
  a24 ← default ns "restore_checkpoints" ≫= as_flag;
  a25 ← default ns "ckpt_prefix" ≫= as_str;
  a26 ← default ns "ckpt_dir" ≫= as_str;
  a27 ← default ns "spm_model" ≫= as_str;
  a28 ← default ns "train_text" ≫= as_str;
  Ok (Build_Config a1 a2 a3 a4 a5 a6 a7 a8 a9 a10 a11 a12 a13 a14 a15 a16
                   a17 a18 a19 a20 a21 a22 a23 a24 a25 a26 a27 a28).

(* ===================================================================== *)
(** ** flax.linen *)
(* ===================================================================== *)

(** The variables a module is applied to: the parameters by path, and the
    keep decisions of the ['dropout'] random stream, if one is given. *)
Record variables : Type := Variables {
  params : list string -> option (ndarray xreal);
  dropout_rng : option (list string -> list nat -> bool)
}.

Definition param (vars : variables) (path : list string)
    (expected : list nat) : result (ndarray xreal) :=
  match params vars path with
  | Some p =>
      if decide (shape p = expected) then Ok p
      else Raise (ScopeParamShapeError path)
  | None => Raise (ScopeParamNotFoundError path)
  end.

(** [self.param(name, init_fn, shape, param_dtype)] when the module is
    applied to given variables: a parameter that is present is checked
    against the abstract value of [init_fn], so the initializer is traced
    and what it raises is raised, before the shapes are compared. *)
Definition param_init (init : result unit) (vars : variables)
    (path : list string) (expected : list nat) : result (ndarray xreal) :=
  match params vars path with
  | Some p =>
      _ ← init;
      if decide (shape p = expected) then Ok p
      else Raise (ScopeParamShapeError path)
  | None => Raise (ScopeParamNotFoundError path)
  end.

(** [nn.initializers.lecun_normal()], the default [kernel_init] of
    [nn.Dense], traced at a kernel shape: its fan computation divides the
    number of entries by the size of the input and of the output axis. *)
Definition lecun_normal (n_in n_out : nat) : result unit :=
  if (n_in =? 0) || (n_out =? 0) then Raise ZeroDivisionError else Ok tt.

(** [nn.initializers.normal(stddev=1.0)] traced at [param_dtype]: the
    samples must be floats. *)
Definition normal (param_dtype : DType) : result unit :=
  match param_dtype with
  | float32 => Ok tt
  | _ => Raise (ValueError "dtype argument to normal must be a float dtype")
  end.

(** [promote_dtype(..., dtype=dt)] of a layer that computes in floats: a
    given [dtype] must be inexact. *)
Definition promote_dtype (dt : option DType) : result unit :=
  match dt with
  | None | Some float32 => Ok tt
  | Some _ => Raise (ValueError "Dtype must be inexact")
  end.

Definition cast (dt : option DType) (x : xreal) : xreal :=
  match dt with
  | Some d => astype d x
  | None => x
  end.

(** [nn.Dense(features, dtype=dt)(x)]: [x @ kernel + bias] on the last
    axis.  The kernel is checked against its initializer, then the bias
    is read, then the operands are promoted to [dt]. *)
Definition Dense (features : Z) (dt : option DType) (vars : variables)
    (path : list string) (x : ndarray xreal) : result (ndarray xreal) :=
  f ← as_dim features;
  match rev (shape x) with
  | [] => Raise (ValueError "Dense: the input has no axis")
  | n_in :: _ =>
      kernel ← param_init (lecun_normal n_in f) vars
                          (path ++ ["kernel"]) [n_in; f];
      bias ← param vars (path ++ ["bias"]) [f];
      _ ← promote_dtype dt;
      Ok (NDArray (removelast (shape x) ++ [f]) (fun idx =>
            let pre := removelast idx in
            let c := List.last idx 0 in
            xadd (xsum n_in (fun i =>
                    xmul (cast dt (item x (pre ++ [i])))
                         (cast dt (item kernel [i; c]))))
                 (cast dt (item bias [c]))))
  end.

(** [nn.LayerNorm(dtype=dt)(x)]: over the last axis, with
    [epsilon = 1e-6], the variance computed as
    [max(0, mean(x^2) - mean(x)^2)], then scale and bias; the result is
    promoted to [dt], which must be inexact. *)
Definition LayerNorm (dt : DType) (vars : variables) (path : list string)
    (x : ndarray xreal) : result (ndarray xreal) :=
  match rev (shape x) with
  | [] => Raise (ValueError "LayerNorm: the input has no axis")
  | n :: _ =>
      scale ← param vars (path ++ ["scale"]) [n];
      bias ← param vars (path ++ ["bias"]) [n];
      _ ← promote_dtype (Some dt);
      Ok (NDArray (shape x) (fun idx =>
            let pre := removelast idx in
            let c := List.last idx 0 in
            let row := fun i => item x (pre ++ [i]) in
            let mean := xdiv (xsum n row) (of_nat n) in
            let mean2 := xdiv (xsum n (fun i => xmul (row i) (row i)))
                              (of_nat n) in
            let var := xmax (Fin 0) (xsub mean2 (xmul mean mean)) in
            let mul := xdiv (Fin 1) (xsqrt (xadd var (Fin (1 / 1000000)))) in
            astype dt
              (xadd (xmul (xsub (row c) mean) (xmul mul (item scale [c])))
                    (item bias [c]))))
  end.

(** [nn.Dropout(rate)(x, deterministic)] *)
Definition Dropout (rate : R) (vars : variables) (path : list string)
    (x : ndarray xreal) (deterministic : bool) : result (ndarray xreal) :=
  if (if Req_dec_T rate 0 then true else false) || deterministic then Ok x
  else if Req_dec_T rate 1 then Ok (full (shape x) (Fin 0))
  else
    match dropout_rng vars with
    | None => Raise InvalidRngError
    | Some keep =>
        Ok (NDArray (shape x) (fun idx =>
              if keep path idx then xdiv (item x idx) (Fin (1 - rate))
              else Fin 0))
    end.

(** The value [jnp.take] fills in for an index out of bounds. *)
Definition fill_value (d : DType) : xreal :=
  match d with
  | float32 => NaN
  | int16 => of_Z (- 2 ^ 15)
  | int32 => of_Z (- 2 ^ 31)
  | bool_ => Fin 1
  end.

(** [nn.Embed(num_embeddings, features, dtype=dt,
    param_dtype=param_dtype,
    embedding_init=nn.initializers.normal(stddev=1.0))(inputs)]: the
    table is checked against its initializer and cast to [dt], and its
    rows are taken at [inputs]; a negative index counts from the end, an
    index out of bounds gives the fill value, and [jnp.take] refuses a
    non-empty take from an empty table and returns the empty table for
    an empty one. *)
Definition Embed (num_embeddings features : Z) (dt param_dtype : DType)
    (vars : variables) (path : list string) (inputs : ndarray Z)
    : result (ndarray xreal) :=
  n ← as_dim num_embeddings;
  f ← as_dim features;
  embedding ← param_init (normal param_dtype) vars
                         (path ++ ["embedding"]) [n; f];
  if n =? 1 then
    Ok (NDArray (shape inputs ++ [f]) (fun idx =>
          let tok := item inputs (removelast idx) in
          let c := List.last idx 0 in
          if (tok =? 0)%Z then astype dt (item embedding [0; c]) else NaN))
  else if n =? 0 then
    if size_of (shape inputs) =? 0 then Ok (amap (astype dt) embedding)
    else Raise (IndexError
                  "Cannot do a non-empty jnp.take() from an empty axis.")
  else
    Ok (NDArray (shape inputs ++ [f]) (fun idx =>
          let tok := item inputs (removelast idx) in
          let c := List.last idx 0 in
          let tok' := if (tok <? 0)%Z then (tok + Z.of_nat n)%Z else tok in
          if ((0 <=? tok') && (tok' <? Z.of_nat n))%Z
          then astype dt (item embedding [Z.to_nat tok'; c])
          else fill_value dt)).

(** [nn.make_attention_mask(query_input, key_input, pairwise_fn,
    dtype=bool)] *)
Definition make_attention_mask {A B C} (pairwise_fn : A -> B -> C)
    (to_bool : C -> bool) (query_input : ndarray A) (key_input : ndarray B)
    : result (ndarray bool) :=
  qe ← expand_dims (-1) query_input;
  ke ← expand_dims (-2) key_input;
  mask ← broadcast2 "pairwise_fn" pairwise_fn qe ke;
  mask ← expand_dims (-3) mask;
  Ok (amap to_bool mask).

(** [nn.make_causal_mask(x, dtype=bool)] *)
Definition make_causal_mask {A} (x : ndarray A) : result (ndarray bool) :=
  match rev (shape x) with
  | [] => Raise (ValueError "tuple index out of range")
  | n :: _ =>
      idxs ← broadcast_to (arange n) (shape x);
      make_attention_mask Z.geb (fun b => b) idxs idxs
  end.

(** [nn.combine_masks(m1, m2)]: the conjunction, returned in the default
    dtype [float32]. *)
Definition combine_masks (m1 m2 : ndarray bool) : result (ndarray xreal) :=
  _ ← assert_ (ndim m2 =? ndim m1);
  mask ← broadcast2 "logical_and" andb m1 m2;
  Ok (amap of_bool mask).

(* ===================================================================== *)
(** ** model.py *)
(* ===================================================================== *)

(** [PositionalEncoder.__call__] *)
Definition PositionalEncoder (config : Config) (x : ndarray xreal)
    : result (ndarray xreal) :=
  _ ← assert_ (ndim x =? 3);
  let batch_size := nth 0 (shape x) 0 in
  let seq_len := nth 1 (shape x) 0 in
  embed_dim ← attr_int config "embed_dim";
  e ← as_dim embed_dim;
  let pe := full [batch_size; seq_len; e] (Fin 0) in
  dt ← attr_dtype config "dtype";
  position ← arange_step seq_len 1 dt;
  let position := newaxis0 position in
  steps ← arange_step e 2 dt;
  let div_term :=
    newaxis0
      (amap xexp
         (amap (fun a => xmul a (xdiv (xneg (Fin (ln 10000))) (of_Z embed_dim)))
               steps)) in
  radians ← einsum_ij_kl_jl position div_term;
  pe ← at_set_stride 0 2 pe (amap xsin radians);
  pe ← at_set_stride 1 2 pe (amap xcos radians);
  x ← broadcast2 "add" xadd x pe;
  Ok (amap (astype dt) x).

(** The pre-softmax scores of [MultiHeadAttention]:
    [(einsum('...qhd,...khd->...hqk', q, k) / sqrt(config.v_dim))
     .astype(config.dtype)] *)
Definition attention_scores (config : Config) (q k : ndarray xreal)
    : result (ndarray xreal) :=
  qk ← einsum_qhd_khd_hqk q k;
  v_dim ← attr_int config "v_dim";
  dt ← attr_dtype config "dtype";
  Ok (amap (fun s => astype dt (xdiv s (xsqrt (of_Z v_dim)))) qk).

(** The attention matrix of [MultiHeadAttention] from the projected and
    reshaped queries and keys: the scores, [-inf] where the mask is
    false, then
    [nn.softmax(attention, axis=-1).astype(config.dtype)]. *)
Definition attention_weights (config : Config) (q k : ndarray xreal)
    (mask : option (ndarray xreal)) : result (ndarray xreal) :=
  attention ← attention_scores config q k;
  attention ← match mask with
              | Some m => where_ m attention NInf
              | None => Ok attention
              end;
  attention ← softmax attention;
  dt ← attr_dtype config "dtype";
  Ok (amap (astype dt) attention).

(** [MultiHeadAttention.__call__] *)
Definition MultiHeadAttention (config : Config) (vars : variables)
    (path : list string) (q k v : ndarray xreal)
    (mask : option (ndarray xreal))
    : result (ndarray xreal * ndarray xreal) :=
  _ ← assert_ (ndim q =? 3);
  _ ← assert_ (ndim k =? 3);
  _ ← assert_ (ndim v =? 3);
  _ ← assert_ ((nth 0 (shape q) 0 =? nth 0 (shape k) 0)
               && (nth 0 (shape k) 0 =? nth 0 (shape v) 0));
  _ ← assert_ (nth 1 (shape k) 0 =? nth 1 (shape v) 0);
  _ ← match mask with
      | Some m => assert_ (ndim m =? 4)
      | None => Ok tt
      end;
  let q_seq_len := Z.of_nat (nth 1 (shape q) 0) in
  let k_seq_len := Z.of_nat (nth 1 (shape k) 0) in
  num_heads ← attr_int config "num_heads";
  k_dim ← attr_int config "k_dim";
  q ← Dense (num_heads * k_dim) None vars (path ++ ["Dense_0"]) q;
  k ← Dense (num_heads * k_dim) None vars (path ++ ["Dense_1"]) k;
  v_dim ← attr_int config "v_dim";
  v ← Dense (num_heads * v_dim) None vars (path ++ ["Dense_2"]) v;
  q ← reshape_infer [q_seq_len; num_heads; k_dim] q;
  k ← reshape_infer [k_seq_len; num_heads; k_dim] k;
  v ← reshape_infer [k_seq_len; num_heads; v_dim] v;
  attention ← attention_weights config q k mask;
  dt ← attr_dtype config "dtype";
  values ← einsum_hqk_khd_qhd attention v;
  values ← reshape_infer [q_seq_len; (num_heads * v_dim)%Z] values;
  embed_dim ← attr_int config "embed_dim";
  out ← Dense embed_dim (Some dt) vars (path ++ ["Dense_3"]) values;
  Ok (amap (astype dt) out, amap (astype dt) attention).

(** [FeedForward.__call__] *)
Definition FeedForward (config : Config) (vars : variables)
    (path : list string) (x : ndarray xreal) (deterministic : bool)
    : result (ndarray xreal) :=
  _ ← assert_ (ndim x =? 3);
  ff_dim ← attr_int config "ff_dim";
  dt ← attr_dtype config "dtype";
  x ← Dense ff_dim (Some dt) vars (path ++ ["Dense_0"]) x;
  let x := amap (xmax (Fin 0)) x in
  rate ← attr_float config "dropout_rate";
  x ← Dropout rate vars (path ++ ["Dropout_0"]) x deterministic;
  embed_dim ← attr_int config "embed_dim";
  x ← Dense embed_dim (Some dt) vars (path ++ ["Dense_1"]) x;
  x ← Dropout rate vars (path ++ ["Dropout_1"]) x deterministic;
  Ok (amap (astype dt) x).

(** [TransformerDecoderLayer.__call__], its arguments bound. *)
Definition TransformerDecoderLayer (config : Config) (vars : variables)
    (path : list string) (x memory decoder_mask encoder_decoder_mask :
    ndarray xreal) (deterministic : bool)
    : result (ndarray xreal * ndarray xreal * ndarray xreal) :=
  _ ← assert_ (ndim x =? 3);
  _ ← assert_ (ndim memory =? 3);
  _ ← assert_ (ndim decoder_mask =? 4);
  _ ← assert_ (ndim encoder_decoder_mask =? 4);
  let res := x in
  '(x, self_attention) ←
    MultiHeadAttention config vars (path ++ ["MultiHeadAttention_0"])
                       x x x (Some decoder_mask);
  rate ← attr_float config "dropout_rate";
  x ← Dropout rate vars (path ++ ["Dropout_0"]) x deterministic;
  dt ← attr_dtype config "dtype";
  s ← broadcast2 "add" xadd res x;
  x ← LayerNorm dt vars (path ++ ["LayerNorm_0"]) s;
  let res := x in
  '(x, src_trg_attention) ←
    MultiHeadAttention config vars (path ++ ["MultiHeadAttention_1"])
                       x memory memory (Some encoder_decoder_mask);
  x ← Dropout rate vars (path ++ ["Dropout_1"]) x deterministic;
  s ← broadcast2 "add" xadd res x;
  x ← LayerNorm dt vars (path ++ ["LayerNorm_1"]) s;
  let res := x in
  x ← FeedForward config vars (path ++ ["FeedForward_0"]) x deterministic;
  s ← broadcast2 "add" xadd res x;
  x ← LayerNorm dt vars (path ++ ["LayerNorm_2"]) s;
  Ok (amap (astype dt) x, amap (astype dt) self_attention,
      amap (astype dt) src_trg_attention).

(** The parameters of [TransformerDecoderLayer.__call__] after [self]. *)
Definition TransformerDecoderLayer_params : list string :=
  ["x"; "memory"; "decoder_mask"; "encoder_decoder_mask"; "deterministic"].

(** A call of a [TransformerDecoderLayer] with positional arguments: they
    are bound to the parameters, then the body runs and returns its
    3-tuple. *)
Definition TransformerDecoderLayer__call__ (config : Config)
    (vars : variables) (path : list string) (args : list pyval)
    : result pyval :=
  bound ← bind_positional "TransformerDecoderLayer.__call__"
                          TransformerDecoderLayer_params args;
  match bound with
  | [x; memory; decoder_mask; encoder_decoder_mask; deterministic] =>
      x ← as_array x;
      memory ← as_array memory;
      decoder_mask ← as_array decoder_mask;
      encoder_decoder_mask ← as_array encoder_decoder_mask;
      deterministic ← as_bool deterministic;
      '(x, self_attention, src_trg_attention) ←
        TransformerDecoderLayer config vars path x memory decoder_mask
                                encoder_decoder_mask deterministic;
      Ok (PTuple [PArray x; PArray self_attention;
                  PArray src_trg_attention])
  | _ => Raise (TypeError "TransformerDecoderLayer.__call__()")
  end.

(** The mask [GPT2.__call__] builds:
    [nn.combine_masks(
       nn.make_attention_mask(jnp.ones_like(src), src != config.pad_id,
                              dtype=bool),
       nn.make_causal_mask(src, dtype=bool))] *)
Definition padding_mask (config : Config) (src : ndarray Z)
    : result (ndarray bool) :=
  let ones := amap (fun _ => 1%Z) src in
  pad_id ← attr_int config "pad_id";
  let keys := amap (fun t => negb (t =? pad_id)%Z) src in
  make_attention_mask (fun o k => (o * Z.b2z k)%Z)
                      (fun z => negb (z =? 0)%Z) ones keys.

Definition decoder_mask_of (config : Config) (src : ndarray Z)
    : result (ndarray xreal) :=
  m1 ← padding_mask config src;
  m2 ← make_causal_mask src;
  combine_masks m1 m2.

(** The name flax gives the [i]-th decoder layer. *)
Definition layer_name (i : nat) : string :=
  "TransformerDecoderLayer_" ++ NilEmpty.string_of_uint (Nat.to_uint i).

(** The loop over the decoder layers: each is called with [x],
    [decoder_mask] and [not train], and its result is unpacked into two
    names. *)
Fixpoint decoder_layers (config : Config) (vars : variables)
    (decoder_mask : ndarray xreal) (train : bool) (layers : list string)
    (x : ndarray xreal) (self_attention_list : list pyval)
    : result (ndarray xreal * list pyval) :=
  match layers with
  | [] => Ok (x, self_attention_list)
  | layer :: rest =>
      r ← TransformerDecoderLayer__call__ config vars [layer]
            [PArray x; PArray decoder_mask; PBool (negb train)];
      '(x', self_attention) ← unpack2 r;
      x' ← as_array x';
      decoder_layers config vars decoder_mask train rest x'
                     (self_attention_list ++ [self_attention])
  end.

(** [GPT2.__call__] *)
Definition GPT2 (config : Config) (vars : variables) (src : ndarray Z)
    (train return_attn : bool) : result pyval :=
  _ ← assert_ (ndim src =? 2);
  decoder_mask ← decoder_mask_of config src;
  vocab_size ← attr_int config "vocab_size";
  embed_dim ← attr_int config "embed_dim";
  id_dtype ← attr_dtype config "id_dtype";
  dt ← attr_dtype config "dtype";
  x ← Embed vocab_size embed_dim id_dtype dt vars ["Embed_0"] src;
  x ← PositionalEncoder config x;
  let x := amap (astype dt) x in
  num_layers ← attr_int config "num_layers";
  let layers := map layer_name (seq 0 (Z.to_nat num_layers)) in
  '(x, self_attention_list) ←
    decoder_layers config vars decoder_mask train layers x [];
  x ← LayerNorm dt vars ["LayerNorm_0"] x;
  logits ← Dense vocab_size (Some dt) vars ["Dense_0"] x;
  if return_attn
  then Ok (PTuple [PArray (amap (astype dt) logits);
                   PList self_attention_list])
  else Ok (PArray (amap (astype dt) logits)).

(** Running the repository: [model.py] imports [Config] from [config.py],
    a configuration is made, and the model is applied to [src]. *)
Definition forward_pass (vars : variables) (src : ndarray Z)
    (train return_attn : bool) : result pyval :=
  cls ← config_py;
  config ← Config_new cls;
  GPT2 config vars src train return_attn.

(* ===================================================================== *)
(** ** Concrete configurations and inputs *)
(* ===================================================================== *)

(** [Config(embed_dim=.., dtype=.., num_layers=..)]: the three fields
    given, every other field at its written default ([jnp.int16] for
    [id_dtype]; [q_dim] and [v_dim] are the class-level [256 // 32]). *)
Definition configure (embed_dim : Z) (dtype : DType) (num_layers : Z)
    : Config := {|
  vocab_size := 8000;
  unk_id := 0;
  bos_id := 1;
  eos_id := 2;
  pad_id := 3;
  max_len := 256;
  embed_dim := embed_dim;
  id_dtype := int16;
  dtype := dtype;
  num_heads := 32;
  num_layers := num_layers;
  q_dim := 256 / 32;
  v_dim := 256 / 32;
  ff_dim := 512;
  dropout_rate := 1 / 10;
  special_ids := [0; 1; 2; 3]%Z;
  special_tokens := ["<unk>"; "<s>"; "</s>"; "<pad>"];
  seed := 42;
  batch_size := 256;
  learning_rate := 1 / 100;
  warmup_steps := 500;
  num_epochs := 20;
  save_ckpt_every_epochs := 1;
  restore_checkpoints := true;
  ckpt_prefix := "completion_ckpt_";
  ckpt_dir := "/content/drive/My Drive/checkpoints/completion/";
  spm_model := "/content/drive/MyDrive/wiki40b_ja/wiki40b_ja_test.model";
  train_text := "/content/drive/MyDrive/wiki40b_ja/wiki40b_ja_test.txt"
|}.

(** [Config()]: every field at its written default. *)
Definition Config_defaults : Config := configure 256 float32 14.

(** A batch of token ids given row by row. *)
Definition tokens (rows : list (list Z)) : ndarray Z :=
  NDArray [length rows; length (hd [] rows)]
          (fun idx => nth (nth 1 idx 0) (nth (nth 0 idx 0) rows []) 0%Z).

(** Variables whose parameters are all zero, with the given shapes, and
    without a dropout stream. *)
Definition zero_variables (table : list (list string * list nat))
    : variables :=
  Variables
    (fun path =>
       match find (fun e => bool_decide (fst e = path)) table with
       | Some e => Some (full (snd e) (Fin 0))
       | None => None
       end)
    None.

(** The embedding table of the default configuration. *)
Definition embed_only : variables :=
  zero_variables [(["Embed_0"; "embedding"], [Z.to_nat 8000; 256])].

(** The parameters of a [FeedForward] applied to inputs of 3 features
    under the default configuration. *)
Definition feed_forward_3 : variables :=
  zero_variables [
    (["Dense_0"; "kernel"], [3; 512]);
    (["Dense_0"; "bias"], [512]);
    (["Dense_1"; "kernel"], [512; 256]);
    (["Dense_1"; "bias"], [256])
  ].

(** The parameters of a [FeedForward] applied to inputs of 256 features
    under the default configuration. *)
Definition feed_forward_256 : variables :=
  zero_variables [
    (["Dense_0"; "kernel"], [256; 512]);
    (["Dense_0"; "bias"], [512]);
    (["Dense_1"; "kernel"], [512; 256]);
    (["Dense_1"; "bias"], [256])
  ].

(** The positional encoding in the words of the specification:
    [PE[t, 2m] = sin(t * 10000^(-2m/embed_dim))] and
    [PE[t, 2m+1] = cos(t * 10000^(-2m/embed_dim))]. *)
Definition PE_spec (embed_dim t c : nat) : R :=
  let m := c / 2 in
  let angle := (INR t * Rpower 10000 (- INR (2 * m) / INR embed_dim))%R in
  if Nat.even c then sin angle else cos angle.

(** The parameter at [path] is present with shape [s]. *)
Definition has_param (vars : variables) (path : list string)
    (s : list nat) : Prop :=
  exists p, params vars path = Some p /\ shape p = s.

(** The query-key dot product of one head. *)
Definition dot (d : nat) (q k : ndarray xreal) (b h i j : nat) : xreal :=
  xsum d (fun c => xmul (item q [b; i; h; c]) (item k [b; j; h; c])).

(** The sum of the reals [u 0 .. u (n-1)]. *)
Definition rsum (n : nat) (u : nat -> R) : R :=
  fold_left (fun acc i => (acc + u i)%R) (seq 0 n) 0%R.

(** A row of scores after masking: every entry is a real number or
    [-inf]. *)
Definition masked_row (n : nat) (row : nat -> xreal) : Prop :=
  forall c, c < n -> row c = NInf \/ is_fin (row c).

(** The parameters [GPT2] itself owns under the default configuration:
    the embedding table, the final layer norm and the vocabulary
    projection. *)
Definition gpt2_own_variables : variables :=
  zero_variables [
    (["Embed_0"; "embedding"], [Z.to_nat 8000; 256]);
    (["LayerNorm_0"; "scale"], [256]);
    (["LayerNorm_0"; "bias"], [256]);
    (["Dense_0"; "kernel"], [256; Z.to_nat 8000]);
    (["Dense_0"; "bias"], [Z.to_nat 8000])
  ].

(** What a result of [GPT2] holds: the shape of the logits, and the
    number of attention matrices when they are returned. *)
Definition returned_shapes (r : result pyval)
    : option (list nat * option nat) :=
  match r with
  | Ok (PArray logits) => Some (shape logits, None)
  | Ok (PTuple [PArray logits; PList l]) => Some (shape logits, Some (length l))
  | _ => None
  end.

(** [Config(dropout_rate=rate)]: the defaults with another dropout
    rate. *)
Definition with_dropout_rate (rate : R) : Config := {|
  vocab_size := vocab_size Config_defaults;
  unk_id := unk_id Config_defaults;
  bos_id := bos_id Config_defaults;
  eos_id := eos_id Config_defaults;
  pad_id := pad_id Config_defaults;
  max_len := max_len Config_defaults;
  embed_dim := embed_dim Config_defaults;
  id_dtype := id_dtype Config_defaults;
  dtype := dtype Config_defaults;
  num_heads := num_heads Config_defaults;
  num_layers := num_layers Config_defaults;
  q_dim := q_dim Config_defaults;
  v_dim := v_dim Config_defaults;
  ff_dim := ff_dim Config_defaults;
  dropout_rate := rate;
  special_ids := special_ids Config_defaults;
  special_tokens := special_tokens Config_defaults;
  seed := seed Config_defaults;
  batch_size := batch_size Config_defaults;
  learning_rate := learning_rate Config_defaults;
  warmup_steps := warmup_steps Config_defaults;
  num_epochs := num_epochs Config_defaults;
  save_ckpt_every_epochs := save_ckpt_every_epochs Config_defaults;
  restore_checkpoints := restore_checkpoints Config_defaults;
  ckpt_prefix := ckpt_prefix Config_defaults;
  ckpt_dir := ckpt_dir Config_defaults;
  spm_model := spm_model Config_defaults;
  train_text := train_text Config_defaults
|}.

(** Lines 106-108 of [MultiHeadAttention.__call__] on given scores: they
    are set to [-inf] where the mask is false, then
    [nn.softmax(attention, axis=-1).astype(config.dtype)]. *)
Definition masked_softmax (config : Config) (attention : ndarray xreal)
    (mask : option (ndarray xreal)) : result (ndarray xreal) :=
  attention ← match mask with
              | Some m => where_ m attention NInf
              | None => Ok attention
              end;
  attention ← softmax attention;
  dt ← attr_dtype config "dtype";
  Ok (amap (astype dt) attention).



(* ===================================================================== *)
(** ** Results *)
(* ===================================================================== *)

Lemma raises_Raise {A} (e : exn) : raises (@Raise A e).
Proof. now exists e. Qed.

Lemma raises_bind_l {A B} (m : result A) (f : A -> result B) :
  raises m -> raises (m ≫= f).
Proof. intros [e ->]. now exists e. Qed.

Lemma raises_bind_r {A B} (m : result A) (f : A -> result B) :
  (forall a, raises (f a)) -> raises (m ≫= f).
Proof. intros H. destruct m as [a|e]; [apply H|now exists e]. Qed.


(* ===================================================================== *)
(** ** Shapes and indices *)
(* ===================================================================== *)

Lemma bdim_refl n : bdim n n = Some n.
Proof. unfold bdim. now rewrite Nat.eqb_refl. Qed.

Lemma bdim_1_l n : bdim 1 n = Some n.
Proof. unfold bdim. destruct (1 =? n) eqn:E; [apply Nat.eqb_eq in E; now subst|]. reflexivity. Qed.

Lemma bdim_1_r n : bdim n 1 = Some n.
Proof. unfold bdim. destruct (n =? 1) eqn:E; [reflexivity|]. reflexivity. Qed.

Lemma bfix d i : i < d -> (if d =? 1 then 0 else i) = i.
Proof. intros H. destruct (d =? 1) eqn:E; [apply Nat.eqb_eq in E; lia|reflexivity]. Qed.

Lemma same_shape s : broadcast_shapes s s = Some s.
Proof.
  unfold broadcast_shapes.
  assert (H : forall r, bshape_rev r r = Some r).
  { induction r as [|d r IH]; [reflexivity|]. cbn. now rewrite bdim_refl, IH. }
  now rewrite H, rev_involutive.
Qed.

Lemma pairwise_shape B L : broadcast_shapes [B; L; 1] [B; 1; L] = Some [B; L; L].
Proof.
  unfold broadcast_shapes. cbn [rev app bshape_rev].
  now rewrite bdim_1_l, bdim_1_r, bdim_refl.
Qed.

Lemma lower_shape B S M : broadcast_shapes [S; M] [B; S; M] = Some [B; S; M].
Proof. unfold broadcast_shapes. cbn [rev app bshape_rev]. now rewrite !bdim_refl. Qed.

Lemma as_dim_of_nat n : as_dim (Z.of_nat n) = Ok n.
Proof.
  unfold as_dim. destruct (Z.ltb_spec (Z.of_nat n) 0); [lia|]. now rewrite Nat2Z.id.
Qed.

Lemma slice_len_all n : slice_len n 0 1 = n.
Proof. unfold slice_len. rewrite Nat.div_1_r. lia. Qed.

Lemma slice_len_even_0 M : slice_len (2 * M) 0 2 = M.
Proof. unfold slice_len. symmetry. apply Nat.div_unique with 1; lia. Qed.

Lemma slice_len_even_1 M : slice_len (2 * M) 1 2 = M.
Proof.
  unfold slice_len. destruct M as [|M]; [reflexivity|].
  symmetry. apply Nat.div_unique with 0; lia.
Qed.

Lemma half_even k : (2 * k) / 2 = k.
Proof. rewrite Nat.mul_comm. now apply Nat.div_mul. Qed.

Lemma half_mod_even k : (2 * k) mod 2 = 0.
Proof. rewrite Nat.mul_comm. now apply Nat.Div0.mod_mul. Qed.

Lemma half_odd k : (2 * k + 1) / 2 = k.
Proof. symmetry. apply Nat.div_unique with 1; lia. Qed.

Lemma half_mod_odd k : (2 * k + 1) mod 2 = 1.
Proof. symmetry. apply Nat.mod_unique with k; lia. Qed.

Lemma even_double k : Nat.even (2 * k) = true.
Proof. apply Nat.even_spec. now exists k. Qed.

Lemma even_odd k : Nat.even (2 * k + 1) = false.
Proof. rewrite <- Nat.negb_odd. apply negb_false_iff, Nat.odd_spec. now exists k. Qed.


(* ===================================================================== *)
(** ** Floats, sums and the softmax of a row *)
(* ===================================================================== *)

Lemma xadd_0_l x : xadd (Fin 0) x = x.
Proof. destruct x; cbn; try reflexivity. now rewrite Rplus_0_l. Qed.

Lemma xsum_1 f : xsum 1 f = xadd (Fin 0) (f 0).
Proof. reflexivity. Qed.

Lemma xsum_S n f : xsum (S n) f = xadd (xsum n f) (f n).
Proof. unfold xsum. now rewrite seq_S, fold_left_app. Qed.

Lemma xsum_ext n f g :
  (forall c, c < n -> f c = g c) -> xsum n f = xsum n g.
Proof.
  induction n as [|n IH]; intros H; [reflexivity|].
  rewrite !xsum_S, IH by (intros c Hc; apply H; lia). now rewrite H by lia.
Qed.

Lemma rsum_S n u : rsum (S n) u = (rsum n u + u n)%R.
Proof. unfold rsum. now rewrite seq_S, fold_left_app. Qed.

Lemma xmaximum_S n f : xmaximum (S n) f = xmax (xmaximum n f) (f n).
Proof. unfold xmaximum. now rewrite seq_S, fold_left_app. Qed.

Lemma xsum_Fin n f u :
  (forall c, c < n -> f c = Fin (u c)) -> xsum n f = Fin (rsum n u).
Proof.
  induction n as [|n IH]; intros H; [reflexivity|].
  rewrite xsum_S, rsum_S, IH by (intros c Hc; apply H; lia).
  now rewrite H by lia.
Qed.

Lemma rsum_nonneg n u : (forall c, c < n -> (0 <= u c)%R) -> (0 <= rsum n u)%R.
Proof.
  induction n as [|n IH]; intros H; [cbn; lra|].
  rewrite rsum_S. specialize (H n (Nat.lt_succ_diag_r n)) as Hn.
  assert (0 <= rsum n u)%R by (apply IH; intros c Hc; apply H; lia). lra.
Qed.

Lemma rsum_pos n u c0 :
  (forall c, c < n -> (0 <= u c)%R) -> c0 < n -> (0 < u c0)%R -> (0 < rsum n u)%R.
Proof.
  induction n as [|n IH]; intros H Hc0 Hpos; [lia|].
  rewrite rsum_S.
  assert (Hn : (0 <= u n)%R) by (apply H; lia).
  assert (Hs : (0 <= rsum n u)%R) by (apply rsum_nonneg; intros c Hc; apply H; lia).
  destruct (Nat.eq_dec c0 n) as [->|Hne]; [lra|].
  assert (0 < rsum n u)%R by (apply IH; [intros c Hc; apply H; lia|lia|exact Hpos]). lra.
Qed.

Lemma rsum_div n u s : rsum n (fun c => u c / s)%R = (rsum n u / s)%R.
Proof.
  induction n as [|n IH]; [cbn; unfold Rdiv; now rewrite Rmult_0_l|].
  rewrite !rsum_S, IH. unfold Rdiv. ring.
Qed.

Lemma truthy_of_bool b : truthy (of_bool b) = b.
Proof.
  destruct b; cbn; destruct (Req_dec_T _ 0) as [H|H]; try reflexivity; exfalso; lra.
Qed.

Lemma IZR_of_nat_neq_0 n : n <> 0 -> IZR (Z.of_nat n) <> 0%R.
Proof. intros H. apply not_0_IZR. lia. Qed.

Lemma sqrt_8 : sqrt 8 = (2 * sqrt 2)%R.
Proof.
  replace 8%R with ((2 * 2) * 2)%R by lra.
  rewrite sqrt_mult by lra. now rewrite sqrt_square by lra.
Qed.

Lemma xmaximum_all_NInf n row :
  (forall c, c < n -> row c = NInf) -> xmaximum n row = NInf.
Proof.
  unfold xmaximum. induction n as [|n IH]; intros H; [reflexivity|].
  rewrite seq_S, fold_left_app. cbn [fold_left Nat.add].
  rewrite IH by (intros c Hc; apply H; lia). now rewrite H by lia.
Qed.

Lemma softmax_row_all_NInf n row j :
  (forall c, c < n -> row c = NInf) -> j < n -> softmax_row n row j = NaN.
Proof.
  intros H Hj. unfold softmax_row. rewrite xmaximum_all_NInf by exact H.
  now rewrite H by exact Hj.
Qed.

Lemma xmaximum_masked n row :
  masked_row n row ->
  (xmaximum n row = NInf /\ forall c, c < n -> row c = NInf)
  \/ exists m, xmaximum n row = Fin m.
Proof.
  induction n as [|n IH]; intros H; [left; split; [reflexivity|lia]|].
  rewrite xmaximum_S.
  destruct (IH (fun c Hc => H c (Nat.lt_lt_succ_r _ _ Hc))) as [[-> Hall]|[m ->]];
    destruct (H n (Nat.lt_succ_diag_r n)) as [Hn|[r Hn]]; rewrite Hn; cbn.
  - left. split; [reflexivity|]. intros c Hc.
    destruct (Nat.eq_dec c n) as [->|Hne]; [exact Hn|apply Hall; lia].
  - right. now exists r.
  - right. now exists m.
  - right. now exists (Rmax m r).
Qed.

Lemma softmax_row_stochastic n row :
  masked_row n row ->
  (exists c0, c0 < n /\ is_fin (row c0)) ->
  (forall j, j < n ->
     exists w, softmax_row n row j = Fin w /\ (0 <= w)%R /\ (row j = NInf -> w = 0%R))
  /\ xsum n (softmax_row n row) = Fin 1.
Proof.
  intros Hrow (c0 & Hc0 & r0 & Hr0).
  destruct (xmaximum_masked n row Hrow) as [[_ Hall]|[m Hm]].
  { rewrite Hall in Hr0 by exact Hc0. discriminate. }
  set (u := fun c => match row c with Fin r => exp (r + - m) | _ => 0%R end).
  assert (Hu : forall c, c < n -> xexp (xsub (row c) (xmaximum n row)) = Fin (u c)).
  { intros c Hc. rewrite Hm. unfold u.
    destruct (Hrow c Hc) as [->|[r ->]]; reflexivity. }
  assert (Hnn : forall c, c < n -> (0 <= u c)%R).
  { intros c _. unfold u. destruct (row c); try lra. left. apply exp_pos. }
  assert (Hpos : (0 < rsum n u)%R).
  { apply (rsum_pos n u c0 Hnn Hc0). unfold u. rewrite Hr0. apply exp_pos. }
  assert (Hval : forall j, j < n -> softmax_row n row j = Fin (u j / rsum n u)).
  { intros j Hj. unfold softmax_row.
    rewrite (xsum_Fin n _ u Hu), (Hu j Hj). cbn.
    destruct (Req_dec_T (rsum n u) 0) as [H0|_]; [lra|reflexivity]. }
  split.
  - intros j Hj. exists (u j / rsum n u)%R. split; [now apply Hval|]. split.
    + apply Rmult_le_pos; [now apply Hnn|]. left. now apply Rinv_0_lt_compat.
    + intros Hmask. unfold u. rewrite Hmask. unfold Rdiv. apply Rmult_0_l.
  - rewrite (xsum_Fin n _ (fun j => u j / rsum n u)%R Hval), rsum_div.
    f_equal. field. lra.
Qed.

Lemma xmaximum_ext n f g :
  (forall c, c < n -> f c = g c) -> xmaximum n f = xmaximum n g.
Proof.
  induction n as [|n IH]; intros H; [reflexivity|].
  rewrite !xmaximum_S, IH by (intros c Hc; apply H; lia). now rewrite H by lia.
Qed.

Lemma softmax_row_ext n f g j :
  (forall c, c < n -> f c = g c) -> j < n ->
  softmax_row n f j = softmax_row n g j.
Proof.
  intros H Hj. unfold softmax_row.
  rewrite (xmaximum_ext n f g H), (H j Hj). f_equal.
  apply xsum_ext. intros c Hc. now rewrite H.
Qed.



Lemma xsum_is_fin n f : (forall c, c < n -> is_fin (f c)) -> is_fin (xsum n f).
Proof.
  induction n as [|n IH]; intros H; [now exists 0%R|].
  rewrite xsum_S.
  destruct IH as [a ->]; [intros c Hc; apply H; lia|].
  destruct (H n) as [b ->]; [lia|]. now eexists.
Qed.

Lemma scale_is_fin x z : (0 < z)%Z -> is_fin x -> is_fin (xdiv x (xsqrt (of_Z z))).
Proof.
  intros Hz [a ->]. unfold of_Z, xsqrt.
  assert (Hp : (0 < IZR z)%R) by now apply IZR_lt.
  destruct (Rlt_dec (IZR z) 0) as [Hlt|_]; [lra|].
  unfold xdiv. destruct (Req_dec_T (sqrt (IZR z)) 0) as [H0|_].
  - pose proof (sqrt_lt_R0 _ Hp). lra.
  - now eexists.
Qed.


(* ===================================================================== *)
(** ** The masks *)
(* ===================================================================== *)

Lemma getattr_pad_id c : attr_int c "pad_id" = Ok (pad_id c).
Proof. reflexivity. Qed.

Lemma expand_dims_last {A} (a : ndarray A) B L :
  shape a = [B; L] ->
  expand_dims (-1) a = Ok (NDArray [B; L; 1] (fun i => item a (delete 2 i))).
Proof. intros H. unfold expand_dims, ndim. rewrite H. reflexivity. Qed.

Lemma expand_dims_before_last {A} (a : ndarray A) B L :
  shape a = [B; L] ->
  expand_dims (-2) a = Ok (NDArray [B; 1; L] (fun i => item a (delete 1 i))).
Proof. intros H. unfold expand_dims, ndim. rewrite H. reflexivity. Qed.

Lemma expand_dims_heads {A} (a : ndarray A) B L T :
  shape a = [B; L; T] ->
  expand_dims (-3) a = Ok (NDArray [B; 1; L; T] (fun i => item a (delete 1 i))).
Proof. intros H. unfold expand_dims, ndim. rewrite H. reflexivity. Qed.

Lemma make_attention_mask_ok {A B C} (f : A -> B -> C) (tb : C -> bool)
    (qi : ndarray A) (ki : ndarray B) n s :
  shape qi = [n; s] -> shape ki = [n; s] ->
  exists m, make_attention_mask f tb qi ki = Ok m /\ shape m = [n; 1; s; s] /\
    forall b i j, b < n -> i < s -> j < s ->
      item m [b; 0; i; j] = tb (f (item qi [b; i]) (item ki [b; j])).
Proof.
  intros Hq Hk. unfold make_attention_mask.
  rewrite (expand_dims_last qi n s Hq), (expand_dims_before_last ki n s Hk).
  cbn [mbind result_bind]. unfold broadcast2. cbn [shape].
  rewrite pairwise_shape. cbn [mbind result_bind].
  erewrite expand_dims_heads by reflexivity. cbn [mbind result_bind].
  eexists. split; [reflexivity|]. split; [reflexivity|].
  intros b i j Hb Hi Hj. cbn. rewrite !bfix by assumption. reflexivity.
Qed.

Lemma padding_mask_ok config src B L :
  shape src = [B; L] ->
  exists pm, padding_mask config src = Ok pm /\ shape pm = [B; 1; L; L] /\
    forall b i j, b < B -> i < L -> j < L ->
      item pm [b; 0; i; j] = negb (item src [b; j] =? pad_id config)%Z.
Proof.
  intros Hs. unfold padding_mask. rewrite getattr_pad_id. cbn [mbind result_bind].
  edestruct (make_attention_mask_ok (fun o k => (o * Z.b2z k)%Z) (fun z => negb (z =? 0)%Z)
     (amap (fun _ => 1%Z) src) (amap (fun t => negb (t =? pad_id config)%Z) src) B L) as (m & Hm & Hsh & Hit); [exact Hs|exact Hs|].
  exists m. split; [exact Hm|]. split; [exact Hsh|].
  intros b i j Hb Hi Hj. rewrite Hit by assumption. cbn [amap item].
  destruct (item src [b; j] =? pad_id config)%Z; reflexivity.
Qed.

Lemma make_causal_mask_ok {A} (src : ndarray A) B L :
  shape src = [B; L] ->
  exists cm, make_causal_mask src = Ok cm /\ shape cm = [B; 1; L; L] /\
    forall b i j, b < B -> i < L -> j < L ->
      item cm [b; 0; i; j] = (j <=? i).
Proof.
  intros Hs. unfold make_causal_mask. rewrite Hs. cbn [rev app].
  unfold broadcast_to. cbn [shape arange].
  replace (broadcast_shapes [L] [B; L]) with (Some [B; L]).
  2:{ unfold broadcast_shapes. cbn [rev app bshape_rev]. now rewrite bdim_refl. }
  rewrite decide_True by reflexivity. cbn [mbind result_bind].
  edestruct (make_attention_mask_ok Z.geb (fun b : bool => b)) as (m & Hm & Hsh & Hit);
    [| | exists m; split; [exact Hm|split; [exact Hsh|]]]; [reflexivity|reflexivity|].
  intros b i j Hb Hi Hj. rewrite Hit by assumption. cbn.
  rewrite !bfix by assumption.
  rewrite Z.geb_leb. destruct (Nat.leb_spec j i); [apply Z.leb_le|apply Z.leb_gt]; lia.
Qed.

Lemma decoder_mask_of_ok config src B L :
  shape src = [B; L] ->
  exists m pm cm,
    decoder_mask_of config src = Ok m /\
    padding_mask config src = Ok pm /\
    make_causal_mask src = Ok cm /\
    shape m = [B; 1; L; L] /\
    forall b i j, b < B -> i < L -> j < L ->
      item m [b; 0; i; j] = of_bool (item pm [b; 0; i; j] && item cm [b; 0; i; j]) /\
      item pm [b; 0; i; j] = negb (item src [b; j] =? pad_id config)%Z /\
      item cm [b; 0; i; j] = (j <=? i).
Proof.
  intros Hs.
  destruct (padding_mask_ok config src B L Hs) as (pm & Hpm & Hpms & Hpmi).
  destruct (make_causal_mask_ok src B L Hs) as (cm & Hcm & Hcms & Hcmi).
  unfold decoder_mask_of. rewrite Hpm, Hcm. cbn [mbind result_bind].
  unfold combine_masks, ndim. rewrite Hpms, Hcms. cbn [length Nat.eqb assert_ mbind result_bind].
  unfold broadcast2. rewrite Hpms, Hcms, same_shape. cbn [mbind result_bind].
  eexists _, pm, cm. repeat split; try reflexivity.
  - cbn. rewrite !bfix by first [assumption|lia]. reflexivity.
  - now apply Hpmi.
  - now apply Hcmi.
Qed.

Lemma decoder_mask_truthy config src B L :
  shape src = [B; L] ->
  exists m, decoder_mask_of config src = Ok m /\ shape m = [B; 1; L; L] /\
    forall b i j, b < B -> i < L -> j < L ->
      (truthy (item m [b; 0; i; j]) = true <->
         j <= i /\ item src [b; j] <> pad_id config).
Proof.
  intros Hs.
  destruct (decoder_mask_of_ok config src B L Hs)
    as (m & pm & cm & Hm & _ & _ & Hsh & Hit).
  exists m. split; [exact Hm|]. split; [exact Hsh|].
  intros b i j Hb Hi Hj. destruct (Hit b i j Hb Hi Hj) as (E1 & E2 & E3).
  rewrite E1, truthy_of_bool, E2, E3.
  rewrite andb_true_iff, negb_true_iff, Z.eqb_neq, Nat.leb_le. tauto.
Qed.


Lemma where_heads m scores B H Sq Sk :
  shape m = [B; 1; Sq; Sk] -> shape scores = [B; H; Sq; Sk] ->
  exists w, where_ m scores NInf = Ok w /\ shape w = [B; H; Sq; Sk] /\
    forall b h i j, b < B -> h < H -> i < Sq -> j < Sk ->
      item w [b; h; i; j]
      = if truthy (item m [b; 0; i; j]) then item scores [b; h; i; j] else NInf.
Proof.
  intros Hm Hs. unfold where_, broadcast2. rewrite Hm, Hs.
  unfold broadcast_shapes. cbn [rev app bshape_rev].
  rewrite !bdim_refl, bdim_1_l. cbn [rev app].
  eexists. split; [reflexivity|]. split; [reflexivity|].
  intros b h i j Hb Hh Hi Hj. cbn [item]. unfold bindex.
  cbn [length Nat.sub drop zip_with Nat.eqb]. now rewrite !bfix by assumption.
Qed.

Lemma softmax_item a B H L n :
  shape a = [B; H; L; n] ->
  exists p, softmax a = Ok p /\ shape p = [B; H; L; n] /\
    forall b h i j,
      item p [b; h; i; j] = softmax_row n (fun c => item a [b; h; i; c]) j.
Proof.
  intros Ha. unfold softmax. rewrite Ha. cbn [rev app].
  eexists. split; [reflexivity|]. split; [reflexivity|]. reflexivity.
Qed.


(* ===================================================================== *)
(** ** The positional encoder *)
(* ===================================================================== *)

Lemma at_set_stride_eq start step pe val B S E M :
  shape pe = [B; S; E] -> shape val = [S; M] -> slice_len E start step = M ->
  at_set_stride start step pe val
  = Ok (NDArray [B; S; E] (fun idx =>
          let c := nth 2 idx 0 in
          if (start <=? c) && ((c - start) mod step =? 0)
          then item val (bindex [S; M] [nth 0 idx 0; nth 1 idx 0; (c - start) / step])
          else item pe idx)).
Proof.
  intros Hpe Hval Hlen. unfold at_set_stride. rewrite Hpe, Hlen.
  unfold broadcast_to. rewrite Hval, lower_shape.
  rewrite decide_True by reflexivity. reflexivity.
Qed.

Lemma radians_value n E t m :
  E <> 0 ->
  xsum 1 (fun i => xsum 1 (fun k =>
    xmul (item (newaxis0 (arange_values n 1 float32)) [i; t])
         (item (newaxis0 (amap xexp (amap (fun a => xmul a (xdiv (xneg (Fin (ln 10000))) (of_Z (Z.of_nat E))))
                            (arange_values E 2 float32)))) [k; m])))
  = Fin (INR t * Rpower 10000 (- INR (2 * m) / INR E)).
Proof.
  intros HE. rewrite xsum_1, xadd_0_l, xsum_1, xadd_0_l.
  cbn [item newaxis0 arange_values amap drop nth astype of_nat of_Z xneg xdiv xmul xexp].
  destruct (Req_dec_T (IZR (Z.of_nat E)) 0) as [H0|_]; [now apply IZR_of_nat_neq_0 in H0|].
  cbn [xmul xexp]. f_equal. rewrite Nat.mul_1_l. f_equal. unfold Rpower. f_equal.
  rewrite (INR_IZR_INZ E). field. now apply IZR_of_nat_neq_0.
Qed.

(** The steps of [PositionalEncoder] on an input of shape
    [[B; L; 2 * M]] under a configuration with [embed_dim = 2 * M]. *)
Ltac run_PositionalEncoder Hx He Hd :=
  unfold PositionalEncoder, ndim; rewrite Hx;
  cbn [length Nat.eqb assert_ mbind result_bind nth];
  match goal with
  | |- context [attr_int ?c "embed_dim"] =>
      replace (attr_int c "embed_dim") with (Ok (embed_dim c)) by reflexivity;
      replace (attr_dtype c "dtype") with (Ok (dtype c)) by reflexivity
  end;
  rewrite He, Hd; cbn [mbind result_bind]; rewrite as_dim_of_nat;
  cbn [mbind result_bind arange_step];
  unfold einsum_ij_kl_jl; cbn [shape newaxis0 arange_values amap];
  rewrite slice_len_all, slice_len_even_0; cbn [mbind result_bind];
  erewrite (at_set_stride_eq 0 2)
    by first [reflexivity | apply slice_len_even_0];
  cbn [mbind result_bind];
  erewrite (at_set_stride_eq 1 2)
    by first [reflexivity | apply slice_len_even_1];
  cbn [mbind result_bind];
  unfold broadcast2; cbn [shape]; rewrite Hx, same_shape;
  cbn [mbind result_bind].

Lemma PositionalEncoder_shape config x B L M :
  shape x = [B; L; 2 * M] ->
  embed_dim config = Z.of_nat (2 * M) ->
  dtype config = float32 ->
  exists y, PositionalEncoder config x = Ok y /\ shape y = [B; L; 2 * M].
Proof.
  intros Hx He Hd. run_PositionalEncoder Hx He Hd.
  eexists. split; reflexivity.
Qed.

Lemma PositionalEncoder_ok config x B L M :
  shape x = [B; L; 2 * M] ->
  embed_dim config = Z.of_nat (2 * M) ->
  dtype config = float32 ->
  exists y, PositionalEncoder config x = Ok y /\ shape y = [B; L; 2 * M] /\
    forall b t c, b < B -> t < L -> c < 2 * M ->
      item y [b; t; c] = xadd (item x [b; t; c]) (Fin (PE_spec (2 * M) t c)).
Proof.
  intros Hx He Hd. run_PositionalEncoder Hx He Hd.
  eexists. split; [reflexivity|]. split; [reflexivity|].
  intros b t c Hb Ht Hc.
  cbn [item amap astype]. unfold bindex. cbn [length Nat.sub drop zip_with nth].
  rewrite !bfix by assumption. f_equal.
  unfold PE_spec.
  destruct (Nat.Even_or_Odd c) as [[k Hk]|[k Hk]]; subst c.
  - assert (E1 : (1 <=? 2 * k) && ((2 * k - 1) mod 2 =? 0) = false).
    { destruct k as [|k]; [reflexivity|].
      replace (2 * S k - 1) with (2 * k + 1) by lia.
      rewrite half_mod_odd. cbn [Nat.eqb]. apply andb_false_r. }
    rewrite E1, Nat.sub_0_r, half_mod_even, half_even, even_double.
    cbn [Nat.leb Nat.eqb andb].
    rewrite bfix by lia. rewrite radians_value by lia. reflexivity.
  - replace (2 * k + 1 - 1) with (2 * k) by lia.
    rewrite half_mod_even, half_even, half_odd, even_odd.
    replace (1 <=? 2 * k + 1) with true by (symmetry; apply Nat.leb_le; lia).
    cbn [Nat.eqb andb].
    rewrite bfix by lia. rewrite radians_value by lia. reflexivity.
Qed.

Lemma sin_1_bounds : (0 < sin 1 < 1)%R.
Proof.
  split.
  - apply sin_gt_0; [lra|]. pose proof PI2_1. lra.
  - apply sin_lt_x. lra.
Qed.

Lemma sin_1_not_integer z : IZR z <> sin 1.
Proof.
  intros H. pose proof sin_1_bounds as [H0 H1]. rewrite <- H in H0, H1.
  apply lt_IZR in H0, H1. lia.
Qed.

Lemma PE_spec_2_1_0 : PE_spec 2 1 0 = sin 1.
Proof.
  unfold PE_spec. cbn [Nat.even Nat.div Nat.divmod fst Nat.mul Nat.add INR].
  replace (- 0 / (1 + 1))%R with 0%R by (unfold Rdiv; ring).
  unfold Rpower. rewrite Rmult_0_l, exp_0. f_equal. ring.
Qed.


(* ===================================================================== *)
(** ** The feed-forward block *)
(* ===================================================================== *)

Lemma param_ok vars path s :
  has_param vars path s -> exists p, param vars path s = Ok p /\ shape p = s.
Proof.
  intros (p & Hp & Hs). exists p. unfold param. rewrite Hp.
  now rewrite decide_True by exact Hs.
Qed.

Lemma param_init_ok init vars path s :
  init = Ok tt -> has_param vars path s ->
  exists p, param_init init vars path s = Ok p /\ shape p = s.
Proof.
  intros -> (p & Hp & Hs). exists p. unfold param_init. rewrite Hp.
  cbn [mbind result_bind]. now rewrite decide_True by exact Hs.
Qed.

Lemma lecun_normal_ok n f : 0 < n -> 0 < f -> lecun_normal n f = Ok tt.
Proof.
  intros Hn Hf. unfold lecun_normal.
  destruct n; [lia|]. destruct f; [lia|]. reflexivity.
Qed.

Lemma Dense_shape features dt vars path x B L n :
  shape x = [B; L; n] ->
  0 < n -> 0 < features -> promote_dtype dt = Ok tt ->
  has_param vars (path ++ ["kernel"]) [n; features] ->
  has_param vars (path ++ ["bias"]) [features] ->
  exists y, Dense (Z.of_nat features) dt vars path x = Ok y /\
            shape y = [B; L; features].
Proof.
  intros Hx Hn Hf Hdt Hk Hb. unfold Dense. rewrite as_dim_of_nat, Hx.
  cbn [mbind result_bind rev app].
  destruct (param_init_ok _ _ _ _ (lecun_normal_ok n features Hn Hf) Hk)
    as (kp & -> & _).
  destruct (param_ok _ _ _ Hb) as (bp & -> & _).
  rewrite Hdt.
  cbn [mbind result_bind]. eexists. split; reflexivity.
Qed.

Lemma Dropout_shape rate vars path x deterministic :
  deterministic = true \/ dropout_rng vars <> None ->
  exists y, Dropout rate vars path x deterministic = Ok y /\ shape y = shape x.
Proof.
  intros Hd. unfold Dropout.
  destruct ((if Req_dec_T rate 0 then true else false) || deterministic) eqn:E.
  - now exists x.
  - destruct (Req_dec_T rate 1); [eexists; split; reflexivity|].
    destruct Hd as [->|Hr]; [now rewrite orb_true_r in E|].
    destruct (dropout_rng vars); [eexists; split; reflexivity|congruence].
Qed.

Lemma FeedForward_shape config vars path x B L n E F deterministic :
  shape x = [B; L; n] ->
  embed_dim config = Z.of_nat E ->
  ff_dim config = Z.of_nat F ->
  dtype config = float32 ->
  0 < n -> 0 < E -> 0 < F ->
  has_param vars (path ++ ["Dense_0"] ++ ["kernel"]) [n; F] ->
  has_param vars (path ++ ["Dense_0"] ++ ["bias"]) [F] ->
  has_param vars (path ++ ["Dense_1"] ++ ["kernel"]) [F; E] ->
  has_param vars (path ++ ["Dense_1"] ++ ["bias"]) [E] ->
  deterministic = true \/ dropout_rng vars <> None ->
  exists y, FeedForward config vars path x deterministic = Ok y /\
            shape y = [B; L; E].
Proof.
  intros Hx He Hf Hdt Hn HE HF K0 B0 K1 B1 Hd. unfold FeedForward, ndim.
  rewrite Hx.
  cbn [length Nat.eqb assert_ mbind result_bind].
  replace (attr_int config "ff_dim") with (Ok (ff_dim config)) by reflexivity.
  replace (attr_dtype config "dtype") with (Ok (dtype config)) by reflexivity.
  replace (attr_float config "dropout_rate") with (Ok (dropout_rate config)) by reflexivity.
  replace (attr_int config "embed_dim") with (Ok (embed_dim config)) by reflexivity.
  rewrite He, Hf, Hdt. cbn [mbind result_bind].
  rewrite (app_assoc path) in K0, B0, K1, B1.
  destruct (Dense_shape F (Some float32) vars _ x B L n Hx Hn HF eq_refl K0 B0)
    as (y0 & -> & Hy0).
  cbn [mbind result_bind].
  destruct (Dropout_shape (dropout_rate config) vars (path ++ ["Dropout_0"])
              (amap (xmax (Fin 0)) y0) deterministic Hd) as (y1 & -> & Hy1).
  cbn [mbind result_bind]. cbn [amap shape] in Hy1. rewrite Hy0 in Hy1.
  destruct (Dense_shape E (Some float32) vars _ y1 B L F Hy1 HF HE eq_refl K1 B1)
    as (y2 & -> & Hy2).
  cbn [mbind result_bind].
  destruct (Dropout_shape (dropout_rate config) vars (path ++ ["Dropout_1"])
              y2 deterministic Hd) as (y3 & -> & Hy3).
  cbn [mbind result_bind]. eexists. split; [reflexivity|]. cbn [amap shape]. congruence.
Qed.

Lemma zero_variables_has_param table path s :
  find (fun e => bool_decide (fst e = path)) table = Some (path, s) ->
  has_param (zero_variables table) path s.
Proof. intros H. eexists. cbn. rewrite H. split; reflexivity. Qed.


(* ===================================================================== *)
(** ** Attention *)
(* ===================================================================== *)

Lemma attention_scores_item config q k B Sq Sk H D :
  shape q = [B; Sq; H; D] -> shape k = [B; Sk; H; D] ->
  dtype config = float32 ->
  exists s, attention_scores config q k = Ok s /\ shape s = [B; H; Sq; Sk] /\
    forall b h i j, b < B ->
      item s [b; h; i; j] = xdiv (dot D q k b h i j) (xsqrt (of_Z (v_dim config))).
Proof.
  intros Hq Hk Hd. unfold attention_scores, einsum_qhd_khd_hqk. rewrite Hq, Hk.
  rewrite bdim_refl, !Nat.eqb_refl. cbn [andb mbind result_bind].
  replace (attr_int config "v_dim") with (Ok (v_dim config)) by reflexivity.
  replace (attr_dtype config "dtype") with (Ok (dtype config)) by reflexivity.
  rewrite Hd. cbn [mbind result_bind].
  eexists. split; [reflexivity|]. split; [reflexivity|].
  intros b h i j Hb. cbn [item amap astype nth]. unfold dot.
  now rewrite !bfix by assumption.
Qed.

Lemma scores_default_scale :
  exists s,
    attention_scores Config_defaults (full [1; 1; 1; 2] (Fin 1)) (full [1; 1; 1; 2] (Fin 1)) = Ok s /\
    dot 2 (full [1; 1; 1; 2] (Fin 1)) (full [1; 1; 1; 2] (Fin 1)) 0 0 0 0 = Fin 2 /\
    item s [0; 0; 0; 0] = Fin (2 / sqrt 8) /\
    item s [0; 0; 0; 0] <> Fin (2 / sqrt 2).
Proof.
  destruct (attention_scores_item Config_defaults (full [1; 1; 1; 2] (Fin 1))
              (full [1; 1; 1; 2] (Fin 1)) 1 1 1 1 2) as (s & Hs & _ & Hit);
    try reflexivity.
  exists s. split; [exact Hs|].
  assert (Hdot : dot 2 (full [1; 1; 1; 2] (Fin 1)) (full [1; 1; 1; 2] (Fin 1)) 0 0 0 0 = Fin 2).
  { cbn. f_equal. lra. }
  split; [exact Hdot|].
  assert (H2 : (0 < sqrt 2)%R) by (apply sqrt_lt_R0; lra).
  assert (Hv : item s [0; 0; 0; 0] = Fin (2 / sqrt 8)).
  { rewrite Hit by lia. rewrite Hdot.
    replace (v_dim Config_defaults) with 8%Z by reflexivity.
    unfold of_Z, xsqrt. destruct (Rlt_dec 8 0) as [Hlt|_]; [lra|].
    unfold xdiv. destruct (Req_dec_T (sqrt 8) 0) as [H0|_]; [rewrite sqrt_8 in H0; lra|].
    reflexivity. }
  split; [exact Hv|]. rewrite Hv. intros Heq. injection Heq as Heq.
  rewrite sqrt_8 in Heq.
  assert (Hx : (2 / (2 * sqrt 2) = 1 / sqrt 2)%R) by (field; lra).
  rewrite Hx in Heq.
  assert (Hy : (1 / sqrt 2 < 2 / sqrt 2)%R).
  { unfold Rdiv. apply Rmult_lt_compat_r; [apply Rinv_0_lt_compat; exact H2|lra]. }
  lra.
Qed.

Lemma dot_is_fin D q k b h i j :
  (forall idx, is_fin (item q idx)) -> (forall idx, is_fin (item k idx)) ->
  is_fin (dot D q k b h i j).
Proof.
  intros Hq Hk. apply xsum_is_fin. intros c _.
  destruct (Hq [b; i; h; c]) as [x ->]. destruct (Hk [b; j; h; c]) as [y ->].
  now eexists.
Qed.


Lemma attention_weights_row_stochastic config q k m B H Sq Sk D :
  shape q = [B; Sq; H; D] -> shape k = [B; Sk; H; D] ->
  shape m = [B; 1; Sq; Sk] ->
  dtype config = float32 -> (0 < v_dim config)%Z ->
  (forall idx, is_fin (item q idx)) -> (forall idx, is_fin (item k idx)) ->
  (forall b i, b < B -> i < Sq ->
     exists j, j < Sk /\ truthy (item m [b; 0; i; j]) = true) ->
  exists a, attention_weights config q k (Some m) = Ok a /\
    shape a = [B; H; Sq; Sk] /\
    forall b h i, b < B -> h < H -> i < Sq ->
      (forall j, j < Sk -> exists w,
         item a [b; h; i; j] = Fin w /\ (0 <= w)%R /\
         (truthy (item m [b; 0; i; j]) = false -> w = 0%R)) /\
      xsum Sk (fun j => item a [b; h; i; j]) = Fin 1.
Proof.
  intros Hq Hk Hm Hd Hv Fq Fk Hrows. unfold attention_weights.
  destruct (attention_scores_item config q k B Sq Sk H D Hq Hk Hd)
    as (s & -> & Hss & Hsi).
  cbn [mbind result_bind].
  destruct (where_heads m s B H Sq Sk Hm Hss) as (w & -> & Hws & Hwi).
  cbn [mbind result_bind].
  destruct (softmax_item w B H Sq Sk Hws) as (p & -> & Hps & Hpi).
  cbn [mbind result_bind].
  replace (attr_dtype config "dtype") with (Ok (dtype config)) by reflexivity.
  rewrite Hd. cbn [mbind result_bind].
  eexists. split; [reflexivity|]. split; [exact Hps|].
  intros b h i Hb Hh Hi. cbn [item amap astype].
  assert (Hrow : masked_row Sk (fun c => item w [b; h; i; c])).
  { intros c Hc. rewrite Hwi by assumption.
    destruct (truthy (item m [b; 0; i; c])); [right|now left].
    rewrite Hsi by assumption. apply scale_is_fin; [exact Hv|].
    now apply dot_is_fin. }
  assert (Hone : exists c0, c0 < Sk /\ is_fin (item w [b; h; i; c0])).
  { destruct (Hrows b i Hb Hi) as (j & Hj & Hjt). exists j. split; [exact Hj|].
    rewrite Hwi by assumption. rewrite Hjt, Hsi by assumption.
    apply scale_is_fin; [exact Hv|]. now apply dot_is_fin. }
  destruct (softmax_row_stochastic Sk _ Hrow Hone) as (Hweights & Hsum).
  split.
  - intros j Hj. rewrite Hpi. destruct (Hweights j Hj) as (x & Hx & Hnn & Hz).
    exists x. split; [exact Hx|]. split; [exact Hnn|].
    intros Hmasked. apply Hz. rewrite Hwi by assumption. now rewrite Hmasked.
  - rewrite <- Hsum. apply xsum_ext. intros j _. now rewrite Hpi.
Qed.



Lemma MultiHeadAttention_raises config vars path q k v mask :
  raises (MultiHeadAttention config vars path q k v mask).
Proof.
  unfold MultiHeadAttention.
  do 6 (apply raises_bind_r; intros ?).
  apply raises_Raise.
Qed.

Lemma MultiHeadAttention_AttributeError config vars path q k v mask B Sq Sk Fq Fk Fv :
  shape q = [B; Sq; Fq] -> shape k = [B; Sk; Fk] -> shape v = [B; Sk; Fv] ->
  match mask with Some m => ndim m = 4 | None => True end ->
  MultiHeadAttention config vars path q k v mask = Raise (AttributeError "k_dim").
Proof.
  intros Hq Hk Hv Hm. unfold MultiHeadAttention, ndim. rewrite Hq, Hk, Hv.
  cbn [length nth]. rewrite !Nat.eqb_refl. cbn [andb assert_ mbind result_bind].
  destruct mask as [m|]; [unfold ndim in Hm; rewrite Hm|]; reflexivity.
Qed.

Lemma TransformerDecoderLayer_raises config vars path x memory
    decoder_mask encoder_decoder_mask deterministic :
  raises (TransformerDecoderLayer config vars path x memory decoder_mask
            encoder_decoder_mask deterministic).
Proof.
  unfold TransformerDecoderLayer.
  do 4 (apply raises_bind_r; intros ?).
  apply raises_bind_l, MultiHeadAttention_raises.
Qed.


(* ===================================================================== *)
(** ** The configuration and the decoder-layer call *)
(* ===================================================================== *)

Lemma getattr_declared config a :
  (exists v, getattr config a = Ok v) <-> In a Config_fields.
Proof.
  split.
  - intros [v Hv]. unfold getattr in Hv.
    destruct (Config_dict config !! a) as [w|] eqn:E; [|discriminate].
    apply elem_of_list_to_map_2 in E.
    apply (list_elem_of_fmap_2 fst) in E. cbn [fst] in E.
    apply list_elem_of_In in E. exact E.
  - intros H. cbn in H.
    repeat (destruct H as [<-|H]; [eexists; reflexivity|]). destruct H.
Qed.

Lemma k_dim_not_declared : ~ In "k_dim" Config_fields.
Proof.
  cbn. intros H. repeat (destruct H as [H|H]; [discriminate H|]). exact H.
Qed.

Lemma name_unbound x ns :
  In x ["Any"; "jnp"; "List"] -> ns !! x = None ->
  name x (Scope ns config_globals) = Raise (NameError x).
Proof.
  intros Hx Hns. unfold name. cbn [locals globals]. rewrite Hns.
  cbn in Hx. destruct Hx as [<-|[<-|[<-|[]]]]; reflexivity.
Qed.

Lemma layer_call_returns_3 config vars path args r :
  TransformerDecoderLayer__call__ config vars path args = Ok r ->
  exists a b c, r = PTuple [a; b; c].
Proof.
  unfold TransformerDecoderLayer__call__. intros H.
  destruct (bind_positional _ _ args) as [bound|e]; [|discriminate H].
  cbn [mbind result_bind] in H.
  destruct bound as [|x [|m [|dm [|em [|det [|? ?]]]]]]; try discriminate H.
  destruct (as_array x) as [x1|]; [|discriminate H].
  destruct (as_array m) as [m1|]; [|discriminate H].
  destruct (as_array dm) as [dm1|]; [|discriminate H].
  destruct (as_array em) as [em1|]; [|discriminate H].
  destruct (as_bool det) as [det1|]; [|discriminate H].
  cbn [mbind result_bind] in H.
  destruct (TransformerDecoderLayer _ _ _ _ _ _ _ _) as [[[y sa] sta]|];
    [|discriminate H].
  cbn [mbind result_bind] in H. injection H as <-. now eexists _, _, _.
Qed.

Lemma decoder_layers_raise config vars mask train layer rest x l :
  decoder_layers config vars mask train (layer :: rest) x l
  = Raise (TypeError "TransformerDecoderLayer.__call__() missing required positional arguments").
Proof. reflexivity. Qed.

Lemma GPT2_raises config vars src train return_attn :
  (1 <= num_layers config)%Z ->
  raises (GPT2 config vars src train return_attn).
Proof.
  intros Hn. unfold GPT2.
  do 8 (apply raises_bind_r; intros ?).
  replace (attr_int config "num_layers") with (Ok (num_layers config)) by reflexivity.
  cbn [mbind result_bind].
  destruct (Z.to_nat (num_layers config)) as [|n] eqn:E; [lia|].
  cbn [seq map]. rewrite decoder_layers_raise. apply raises_Raise.
Qed.

(* ===================================================================== *)
(** ** Runs that return *)
(* ===================================================================== *)

Lemma bind_Ok {A B} (m : result A) (f : A -> result B) b :
  m ≫= f = Ok b -> exists a, m = Ok a /\ f a = Ok b.
Proof. destruct m as [a|e]; [intros H; now exists a|discriminate]. Qed.

Lemma bind_congr {A B} (m m' : result A) (f g : A -> result B) :
  m = m' -> (forall a, f a = g a) -> m ≫= f = m' ≫= g.
Proof. intros <- H. destruct m as [a|e]; [apply H|reflexivity]. Qed.

Lemma assert_Ok c u : assert_ c = Ok u -> c = true.
Proof. destruct c; [reflexivity|discriminate]. Qed.

Lemma Ok_inj {A} (a b : A) : Ok a = Ok b -> a = b.
Proof. intros H. now injection H. Qed.

Tactic Notation "bind_inv" hyp(H) ident(a) ident(Ha) :=
  let H' := fresh in
  apply bind_Ok in H; destruct H as (a & Ha & H'); rename H' into H.

Lemma as_dim_Ok z n : as_dim z = Ok n -> z = Z.of_nat n.
Proof.
  unfold as_dim. destruct (Z.ltb_spec z 0) as [Hz|Hz]; [discriminate|].
  intros Hd. injection Hd as <-. lia.
Qed.

Lemma param_init_Ok init vars path s p :
  param_init init vars path s = Ok p ->
  init = Ok tt /\ params vars path = Some p /\ shape p = s.
Proof.
  unfold param_init. destruct (params vars path) as [q|]; [|discriminate].
  destruct init as [[]|e]; [|discriminate]. cbn [mbind result_bind].
  destruct (decide (shape q = s)) as [Hs|]; [|discriminate].
  intros H. apply Ok_inj in H. subst q. auto.
Qed.

Lemma lecun_normal_Ok n f : lecun_normal n f = Ok tt -> 0 < n /\ 0 < f.
Proof.
  unfold lecun_normal. destruct n; [discriminate|]. destruct f; [discriminate|].
  intros _. lia.
Qed.

Lemma at_set_stride_shape start step pe val pe' :
  at_set_stride start step pe val = Ok pe' -> shape pe' = shape pe.
Proof.
  unfold at_set_stride.
  destruct (shape pe) as [|nb [|ns [|ne [|? ?]]]] eqn:E; try discriminate.
  intros H. bind_inv H v Hu1. injection H as <-. reflexivity.
Qed.

Lemma broadcast2_same_shape {A B C} op (f : A -> B -> C) a b r s :
  shape a = s -> shape b = s -> broadcast2 op f a b = Ok r -> shape r = s.
Proof.
  intros Ha Hb. unfold broadcast2. rewrite Ha, Hb, same_shape.
  intros H. injection H as <-. reflexivity.
Qed.

Lemma PositionalEncoder_Ok_shape config x y B L :
  shape x = [B; L; Z.to_nat (embed_dim config)] ->
  PositionalEncoder config x = Ok y ->
  shape y = [B; L; Z.to_nat (embed_dim config)].
Proof.
  intros Hx H. unfold PositionalEncoder in H.
  bind_inv H u2 Hu3.
  change (attr_int config "embed_dim") with (Ok (embed_dim config)) in H.
  change (attr_dtype config "dtype") with (Ok (dtype config)) in H.
  cbn [mbind result_bind] in H.
  bind_inv H e He.
  assert (e = Z.to_nat (embed_dim config)) as ->.
  { apply as_dim_Ok in He. rewrite He. now rewrite Nat2Z.id. }
  bind_inv H pos Hpos. bind_inv H stp Hstp.
  bind_inv H rad Hu4.
  bind_inv H pe1 H1.
  bind_inv H pe2 H2.
  bind_inv H s Hs.
  injection H as <-. cbn [amap shape].
  apply at_set_stride_shape in H1, H2. rewrite H1 in H2. cbn [full shape] in H2.
  rewrite Hx in H2. cbn [nth] in H2.
  exact (broadcast2_same_shape _ _ _ _ _ _ Hx H2 Hs).
Qed.

Lemma LayerNorm_Ok_shape dt vars path x y :
  LayerNorm dt vars path x = Ok y -> shape y = shape x.
Proof.
  unfold LayerNorm. destruct (rev (shape x)) as [|n r]; [discriminate|].
  intros H. bind_inv H psc Hu5.
  bind_inv H pbi Hu6. bind_inv H u Hu7. injection H as <-. reflexivity.
Qed.

Lemma Dense_Ok_shape features dt vars path x y :
  Dense features dt vars path x = Ok y ->
  exists f, as_dim features = Ok f /\
            shape y = (removelast (shape x) ++ [f])%list.
Proof.
  unfold Dense. intros H. bind_inv H f Hf.
  destruct (rev (shape x)) as [|n r]; [discriminate|].
  bind_inv H pke Hu7.
  bind_inv H pbi Hu8. bind_inv H u Hu9. injection H as <-.
  exists f. split; [exact Hf|reflexivity].
Qed.

(* ===================================================================== *)
(** ** Position by position *)
(* ===================================================================== *)


Lemma Embed_Ok_shape n f dt pdt vars path src x :
  Embed n f dt pdt vars path src = Ok x ->
  exists vf, as_dim f = Ok vf /\
    (shape x = (shape src ++ [vf])%list \/ shape x = [0; vf]).
Proof.
  unfold Embed. intros H. bind_inv H vn Hn. bind_inv H vf Hf.
  bind_inv H em Hem. apply param_init_Ok in Hem. destruct Hem as (_ & _ & He).
  exists vf. split; [exact Hf|].
  destruct (vn =? 1); [injection H as <-; now left|].
  destruct (Nat.eqb_spec vn 0) as [->|_];
    [|injection H as <-; now left].
  destruct (size_of (shape src) =? 0); [|discriminate].
  injection H as <-. right. exact He.
Qed.






(* ===================================================================== *)
(** ** The claims *)
(* ===================================================================== *)

(** C1.  The forward pass is meant to be embedding, positional encoding,
    [num_layers] decoder layers, a final layer norm and the vocabulary
    projection.  As the repository stands, the pass on the batch [[1, 2]]
    ends in the [NameError] of [config.py].  With the default
    configuration made by hand, the embedding and the positional encoding
    are computed, and the first decoder layer is then called with three
    positional arguments where its [__call__] has five parameters: the
    pass ends in [TypeError] and composes nothing further. *)
Theorem GPT2_first_layer_call_raises :
  forward_pass embed_only (tokens [[1; 2]%Z]) false false
  = Raise (NameError "jnp") /\
  GPT2 Config_defaults embed_only (tokens [[1; 2]%Z]) false false
  = Raise (TypeError
      "TransformerDecoderLayer.__call__() missing required positional arguments").
Proof. split; reflexivity. Qed.

(** C2.  For every [src] of shape [batch, seq_len] the mask [GPT2] builds
    has shape [batch, 1, seq_len, seq_len]; it is true at query [i] and
    key [j] of row [b] exactly when [j <= i] and [src[b, j]] is not
    [pad_id], and it is the conjunction of the padding mask on the keys
    and the causal mask. *)
Theorem decoder_mask_causal_and_padding (config : Config) (src : ndarray Z)
    (B L : nat) :
  shape src = [B; L] ->
  exists m pm cm,
    decoder_mask_of config src = Ok m /\
    padding_mask config src = Ok pm /\
    make_causal_mask src = Ok cm /\
    shape m = [B; 1; L; L] /\
    forall b i j, b < B -> i < L -> j < L ->
      (truthy (item m [b; 0; i; j]) = true <->
         j <= i /\ item src [b; j] <> pad_id config) /\
      truthy (item m [b; 0; i; j])
        = item pm [b; 0; i; j] && item cm [b; 0; i; j] /\
      (item pm [b; 0; i; j] = true <-> item src [b; j] <> pad_id config) /\
      (item cm [b; 0; i; j] = true <-> j <= i).
Proof.
  intros Hs.
  destruct (decoder_mask_of_ok config src B L Hs)
    as (m & pm & cm & Hm & Hpm & Hcm & Hsh & Hit).
  exists m, pm, cm. repeat (split; [assumption|]).
  intros b i j Hb Hi Hj. destruct (Hit b i j Hb Hi Hj) as (E1 & E2 & E3).
  rewrite E1, truthy_of_bool, E2, E3.
  rewrite andb_true_iff, negb_true_iff, Z.eqb_neq, Nat.leb_le.
  repeat split; tauto.
Qed.

Lemma decoder_mask_causal_and_padding_witness :
  shape (tokens [[1; 3; 2]%Z]) = [1; 3] /\
  exists m, decoder_mask_of Config_defaults (tokens [[1; 3; 2]%Z]) = Ok m /\
            shape m = [1; 1; 3; 3].
Proof.
  split; [reflexivity|].
  destruct (decoder_mask_causal_and_padding Config_defaults
              (tokens [[1; 3; 2]%Z]) 1 3 eq_refl)
    as (m & _ & _ & Hm & _ & _ & Hsh & _).
  exists m. split; [exact Hm|exact Hsh].
Defined.



(** C4.  The forward pass is meant to return logits of shape
    [batch, seq_len, vocab_size], with the list of [num_layers] attention
    matrices when [return_attn] is set.  With no decoder layer it does:
    logits of shape [1, 2, 8000], and an empty list.  With one layer or
    with the default 14 it returns nothing, whatever [return_attn] is. *)
Theorem GPT2_returns_no_logits :
  returned_shapes (GPT2 (configure 256 float32 0) gpt2_own_variables
                        (tokens [[1; 2]%Z]) false true)
  = Some ([1; 2; Z.to_nat 8000], Some 0) /\
  returned_shapes (GPT2 (configure 256 float32 0) gpt2_own_variables
                        (tokens [[1; 2]%Z]) false false)
  = Some ([1; 2; Z.to_nat 8000], None) /\
  forall return_attn,
    returned_shapes (GPT2 (configure 256 float32 1) gpt2_own_variables
                          (tokens [[1; 2]%Z]) false return_attn) = None /\
    GPT2 Config_defaults gpt2_own_variables (tokens [[1; 2]%Z]) false return_attn
    = Raise (TypeError
        "TransformerDecoderLayer.__call__() missing required positional arguments").
Proof.
  split; [reflexivity|]. split; [reflexivity|].
  intros [|]; split; reflexivity.
Qed.

(** C5.  The scores are meant to be the dot products divided by the
    square root of the per-head key dimension.  [MultiHeadAttention]
    stops at [config.k_dim] before any score is computed; and the score
    expression divides by [sqrt(config.v_dim)] whatever the dimension of
    the keys is: on keys of dimension 2 under the default configuration
    ([v_dim = 8]) the dot product 2 becomes [2 / sqrt 8], not
    [2 / sqrt 2]. *)
Theorem attention_scale_is_v_dim :
  MultiHeadAttention Config_defaults (zero_variables []) []
    (full [1; 1; 256] (Fin 0)) (full [1; 1; 256] (Fin 0))
    (full [1; 1; 256] (Fin 0)) None
  = Raise (AttributeError "k_dim") /\
  exists s,
    attention_scores Config_defaults (full [1; 1; 1; 2] (Fin 1))
                     (full [1; 1; 1; 2] (Fin 1)) = Ok s /\
    dot 2 (full [1; 1; 1; 2] (Fin 1)) (full [1; 1; 1; 2] (Fin 1)) 0 0 0 0
    = Fin 2 /\
    item s [0; 0; 0; 0] = Fin (2 / sqrt 8) /\
    item s [0; 0; 0; 0] <> Fin (2 / sqrt 2).
Proof. split; [reflexivity|exact scores_default_scale]. Qed.

(** C6.  [MultiHeadAttention] is meant to return a row-stochastic
    attention matrix.  The matrix its softmax lines compute from finite
    projected queries and keys, under a mask of the documented shape that
    leaves an unmasked key in every query row, is row-stochastic: every
    weight is a non-negative real, a masked weight is exactly 0, and each
    row sums to 1.  But whatever the configuration, every well-shaped
    call of [MultiHeadAttention] raises [AttributeError] for
    [config.k_dim] before it reaches those lines, and returns no
    matrix. *)
Theorem MultiHeadAttention_returns_no_attention :
  (forall config vars path q k v mask B Sq Sk Fq Fk Fv,
     shape q = [B; Sq; Fq] -> shape k = [B; Sk; Fk] ->
     shape v = [B; Sk; Fv] ->
     match mask with Some m => ndim m = 4 | None => True end ->
     MultiHeadAttention config vars path q k v mask
     = Raise (AttributeError "k_dim")) /\
  (forall config q k m B H Sq Sk D,
     shape q = [B; Sq; H; D] -> shape k = [B; Sk; H; D] ->
     shape m = [B; 1; Sq; Sk] ->
     dtype config = float32 -> (0 < v_dim config)%Z ->
     (forall idx, is_fin (item q idx)) -> (forall idx, is_fin (item k idx)) ->
     (forall b i, b < B -> i < Sq ->
        exists j, j < Sk /\ truthy (item m [b; 0; i; j]) = true) ->
     exists a, attention_weights config q k (Some m) = Ok a /\
       shape a = [B; H; Sq; Sk] /\
       forall b h i, b < B -> h < H -> i < Sq ->
         (forall j, j < Sk -> exists w,
            item a [b; h; i; j] = Fin w /\ (0 <= w)%R /\
            (truthy (item m [b; 0; i; j]) = false -> w = 0%R)) /\
         xsum Sk (fun j => item a [b; h; i; j]) = Fin 1).
Proof.
  split; [exact MultiHeadAttention_AttributeError|].
  exact attention_weights_row_stochastic.
Qed.

Lemma MultiHeadAttention_returns_no_attention_witness :
  MultiHeadAttention Config_defaults (zero_variables []) []
    (full [1; 2; 256] (Fin 0)) (full [1; 2; 256] (Fin 0))
    (full [1; 2; 256] (Fin 0)) (Some (full [1; 1; 2; 2] (Fin 1)))
  = Raise (AttributeError "k_dim") /\
  exists a,
    attention_weights Config_defaults (full [1; 2; 32; 8] (Fin 0))
      (full [1; 2; 32; 8] (Fin 0)) (Some (full [1; 1; 2; 2] (Fin 1))) = Ok a /\
    shape a = [1; 32; 2; 2].
Proof.
  destruct MultiHeadAttention_returns_no_attention as (Hraise & Hrows).
  split.
  - apply (Hraise Config_defaults (zero_variables []) [] _ _ _ _
             1 2 2 256 256 256); reflexivity.
  - destruct (Hrows Config_defaults (full [1; 2; 32; 8] (Fin 0))
                (full [1; 2; 32; 8] (Fin 0)) (full [1; 1; 2; 2] (Fin 1))
                1 32 2 2 8) as (a & Ha & Hs & _);
      [reflexivity | reflexivity | reflexivity | reflexivity | reflexivity
      | intros idx; now exists 0%R
      | intros idx; now exists 0%R
      | intros b i _ _; exists 0; split;
        [lia | exact (truthy_of_bool true)]
      | ].
    exists a. split; [exact Ha|exact Hs].
Defined.

(** C7, as amended.  Under a configuration with [dtype = float32] and
    positive [embed_dim] and [ff_dim], for an input [x] of shape
    [B, L, embed_dim], with [embed_dim] even for [PositionalEncoder] and
    the parameters of the two dense layers of [FeedForward] present with
    matching shapes (and a dropout stream given unless [deterministic]),
    [PositionalEncoder] and [FeedForward] return an output of exactly the
    shape of [x]. *)
Theorem layers_preserve_shape (config : Config) (vars : variables)
    (path : list string) (x : ndarray xreal) (deterministic : bool)
    (B L E F : nat) :
  shape x = [B; L; E] ->
  embed_dim config = Z.of_nat E ->
  ff_dim config = Z.of_nat F ->
  dtype config = float32 ->
  0 < E -> 0 < F ->
  has_param vars (path ++ ["Dense_0"] ++ ["kernel"]) [E; F] ->
  has_param vars (path ++ ["Dense_0"] ++ ["bias"]) [F] ->
  has_param vars (path ++ ["Dense_1"] ++ ["kernel"]) [F; E] ->
  has_param vars (path ++ ["Dense_1"] ++ ["bias"]) [E] ->
  deterministic = true \/ dropout_rng vars <> None ->
  (Nat.Even E ->
   exists y, PositionalEncoder config x = Ok y /\ shape y = shape x) /\
  (exists y, FeedForward config vars path x deterministic = Ok y /\
             shape y = shape x).
Proof.
  intros Hx He Hf Hdt HE HF K0 B0 K1 B1 Hdet. split.
  - intros [M HM]. subst E.
    destruct (PositionalEncoder_shape config x B L M Hx He Hdt)
      as (y & Hy & Hs).
    exists y. split; [exact Hy|congruence].
  - destruct (FeedForward_shape config vars path x B L E E F
                deterministic Hx He Hf Hdt HE HE HF K0 B0 K1 B1 Hdet)
      as (y & Hy & Hs).
    exists y. split; [exact Hy|congruence].
Qed.

Lemma layers_preserve_shape_witness :
  (exists y, PositionalEncoder Config_defaults (full [1; 2; 256] (Fin 0)) = Ok y /\
             shape y = [1; 2; 256]) /\
  (exists y, FeedForward Config_defaults feed_forward_256 []
               (full [1; 2; 256] (Fin 0)) true = Ok y /\
             shape y = [1; 2; 256]).
Proof.
  destruct (layers_preserve_shape Config_defaults feed_forward_256 []
              (full [1; 2; 256] (Fin 0)) true 1 2 256 512) as (Hpe & Hff);
    [reflexivity | reflexivity | reflexivity | reflexivity | lia | lia
    | apply zero_variables_has_param; reflexivity
    | apply zero_variables_has_param; reflexivity
    | apply zero_variables_has_param; reflexivity
    | apply zero_variables_has_param; reflexivity
    | now left | ].
  split; [|exact Hff].
  apply Hpe. exists 128. reflexivity.
Defined.

(** C7, as stated, fails on each of its three layers.  Under the default
    configuration [FeedForward] maps an input of shape [1, 1, 3] to an
    output of shape [1, 1, 256]; with [embed_dim = 3] [PositionalEncoder]
    raises on an input of shape [1, 1, 3], the cosines of shape [1, 2]
    not fitting the one odd column; and [TransformerDecoderLayer] raises
    on a well-shaped call, [config.k_dim] being no field of [Config]. *)
Lemma layers_change_shape_or_raise :
  (exists y,
     FeedForward Config_defaults feed_forward_3 []
                 (full [1; 1; 3] (Fin 0)) true = Ok y /\
     shape y = [1; 1; 256] /\
     shape y <> shape (full [1; 1; 3] (Fin 0) : ndarray xreal)) /\
  PositionalEncoder (configure 3 float32 14) (full [1; 1; 3] (Fin 0))
  = Raise (ShapeError "broadcast_to") /\
  TransformerDecoderLayer Config_defaults (zero_variables []) []
    (full [1; 2; 256] (Fin 0)) (full [1; 2; 256] (Fin 0))
    (full [1; 1; 2; 2] (Fin 1)) (full [1; 1; 2; 2] (Fin 1)) true
  = Raise (AttributeError "k_dim").
Proof.
  split; [|split; reflexivity].
  destruct (FeedForward_shape Config_defaults feed_forward_3 []
              (full [1; 1; 3] (Fin 0)) 1 1 3 256 512 true) as (y & Hy & Hs);
    [reflexivity | reflexivity | reflexivity | reflexivity | lia | lia | lia
    | apply zero_variables_has_param; reflexivity
    | apply zero_variables_has_param; reflexivity
    | apply zero_variables_has_param; reflexivity
    | apply zero_variables_has_param; reflexivity
    | now left | ].
  exists y. split; [exact Hy|]. split; [exact Hs|].
  rewrite Hs. cbn. discriminate.
Qed.

(** C8.  The forward pass of the repository raises before any logits
    exist.  Running [config.py] stops at the unbound name [jnp]; with
    [jnp] bound it stops at [Any], with [Any] bound at [List], and with
    all three bound [dataclass] refuses the list default; so the pass,
    which starts by importing [Config], raises [NameError] on every
    input.  [k_dim] is not a field of [Config]: reading it raises, and so
    does every call of [MultiHeadAttention] and of the decoder layer.
    The decoder layer has five parameters and a call with three arguments
    raises [TypeError], which is what the loop of [GPT2] does on its
    first layer; what a layer call returns is a 3-tuple, which does not
    unpack into two names; and [GPT2] raises on every input once there is
    at least one layer. *)
Theorem forward_pass_always_raises :
  config_py = Raise (NameError "jnp") /\
  exec_config_py with_jnp = Raise (NameError "Any") /\
  exec_config_py with_jnp_Any = Raise (NameError "List") /\
  exec_config_py with_jnp_Any_List
  = Raise (ValueError "mutable default <class 'list'> for field") /\
  (forall x ns, In x ["Any"; "jnp"; "List"] -> ns !! x = None ->
     name x (Scope ns config_globals) = Raise (NameError x)) /\
  (forall vars src train return_attn,
     forward_pass vars src train return_attn = Raise (NameError "jnp")) /\
  ~ In "k_dim" Config_fields /\
  (forall config a, (exists v, getattr config a = Ok v) <-> In a Config_fields) /\
  (forall config, getattr config "k_dim" = Raise (AttributeError "k_dim")) /\
  (forall config vars path q k v mask,
     raises (MultiHeadAttention config vars path q k v mask)) /\
  (forall config vars path x memory decoder_mask encoder_decoder_mask
          deterministic,
     raises (TransformerDecoderLayer config vars path x memory decoder_mask
               encoder_decoder_mask deterministic)) /\
  length TransformerDecoderLayer_params = 5 /\
  (forall config vars path a b c,
     TransformerDecoderLayer__call__ config vars path [a; b; c]
     = Raise (TypeError
         "TransformerDecoderLayer.__call__() missing required positional arguments")) /\
  (forall config vars decoder_mask train layer rest x l,
     decoder_layers config vars decoder_mask train (layer :: rest) x l
     = Raise (TypeError
         "TransformerDecoderLayer.__call__() missing required positional arguments")) /\
  (forall config vars path args r,
     TransformerDecoderLayer__call__ config vars path args = Ok r ->
     exists a b c, r = PTuple [a; b; c]) /\
  (forall a b c,
     unpack2 (PTuple [a; b; c])
     = Raise (ValueError "too many values to unpack (expected 2)")) /\
  (forall config vars src train return_attn,
     (1 <= num_layers config)%Z ->
     raises (GPT2 config vars src train return_attn)).
Proof.
  do 4 (split; [reflexivity|]).
  split; [exact name_unbound|].
  split; [reflexivity|].
  split; [exact k_dim_not_declared|].
  split; [exact getattr_declared|].
  split; [reflexivity|].
  split; [exact MultiHeadAttention_raises|].
  split; [exact TransformerDecoderLayer_raises|].
  do 3 (split; [reflexivity|]).
  split; [exact layer_call_returns_3|].
  split; [reflexivity|].
  exact GPT2_raises.
Qed.

Lemma forward_pass_always_raises_witness :
  (1 <= num_layers Config_defaults)%Z /\
  raises (GPT2 Config_defaults embed_only (tokens [[1; 2]%Z]) false false) /\
  name "jnp" (Scope ∅ config_globals) = Raise (NameError "jnp").
Proof.
  destruct forward_pass_always_raises
    as (_ & _ & _ & _ & Hname & _ & _ & _ & _ & _ & _ & _ & _ & _ & _ & _
        & Hgpt).
  split; [cbn; lia|]. split.
  - apply Hgpt. cbn. lia.
  - apply Hname; [right; left; reflexivity|reflexivity].
Defined.

(** C9.  For [src] of shape [batch, seq_len] the mask is built, and: if
    the first token of row [b] is not [pad_id], every query row of [b]
    keeps key 0, so that masked finite scores leave a finite score in
    every row and their softmax is row-stochastic; if the first token is
    [pad_id], query row 0 is masked entirely, the masked scores of that
    row are all [-inf] and their softmax is [NaN].  No logits receive
    that [NaN]: on the batch [[3, 1]], whose first token is the default
    [pad_id], the forward pass ends in the [TypeError] of the first
    decoder-layer call. *)
Theorem fully_masked_rows (config : Config) (src : ndarray Z) (B L : nat) :
  shape src = [B; L] ->
  (exists m, decoder_mask_of config src = Ok m /\
    (forall b, b < B -> 0 < L -> item src [b; 0] <> pad_id config ->
       (forall i, i < L -> truthy (item m [b; 0; i; 0]) = true) /\
       forall scores H,
         shape scores = [B; H; L; L] ->
         (forall h i j, h < H -> i < L -> j < L ->
            is_fin (item scores [b; h; i; j])) ->
         exists w p, where_ m scores NInf = Ok w /\ softmax w = Ok p /\
           forall h i, h < H -> i < L ->
             is_fin (item w [b; h; i; 0]) /\
             (forall j, j < L -> exists a,
                item p [b; h; i; j] = Fin a /\ (0 <= a)%R /\
                (truthy (item m [b; 0; i; j]) = false -> a = 0%R)) /\
             xsum L (fun j => item p [b; h; i; j]) = Fin 1) /\
    (forall b, b < B -> 0 < L -> item src [b; 0] = pad_id config ->
       (forall j, j < L -> truthy (item m [b; 0; 0; j]) = false) /\
       forall scores H,
         shape scores = [B; H; L; L] ->
         exists w p, where_ m scores NInf = Ok w /\ softmax w = Ok p /\
           forall h j, h < H -> j < L ->
             item w [b; h; 0; j] = NInf /\ item p [b; h; 0; j] = NaN)) /\
  item (tokens [[3; 1]%Z]) [0; 0] = pad_id Config_defaults /\
  GPT2 Config_defaults embed_only (tokens [[3; 1]%Z]) false false
  = Raise (TypeError
      "TransformerDecoderLayer.__call__() missing required positional arguments").
Proof.
  intros Hs. split; [|split; reflexivity].
  destruct (decoder_mask_truthy config src B L Hs) as (m & Hm & Hsh & Hit).
  exists m. split; [exact Hm|]. split.
  - intros b Hb HL Hfirst. split.
    + intros i Hi. apply (Hit b i 0 Hb Hi HL). split; [lia|exact Hfirst].
    + intros scores H Hsc Hfin.
      destruct (where_heads m scores B H L L Hsh Hsc) as (w & Hw & Hwsh & Hwit).
      destruct (softmax_item w B H L L Hwsh) as (p & Hp & _ & Hpit).
      exists w, p. split; [exact Hw|]. split; [exact Hp|].
      intros h i Hh Hi.
      assert (Hkey0 : truthy (item m [b; 0; i; 0]) = true).
      { apply (Hit b i 0 Hb Hi HL). split; [lia|exact Hfirst]. }
      assert (Hrow : masked_row L (fun c => item w [b; h; i; c])).
      { intros c Hc. rewrite Hwit by assumption.
        destruct (truthy (item m [b; 0; i; c])); [right; now apply Hfin|now left]. }
      assert (Hfin0 : is_fin (item w [b; h; i; 0])).
      { rewrite Hwit by assumption. rewrite Hkey0. now apply Hfin. }
      destruct (softmax_row_stochastic L _ Hrow (ex_intro _ 0 (conj HL Hfin0)))
        as (Hweights & Hsum).
      split; [exact Hfin0|]. split.
      * intros j Hj. rewrite Hpit.
        destruct (Hweights j Hj) as (a & Ha & Hnn & Hzero).
        exists a. split; [exact Ha|]. split; [exact Hnn|].
        intros Hmasked. apply Hzero. rewrite Hwit by assumption.
        now rewrite Hmasked.
      * rewrite <- Hsum. apply xsum_ext.
        intros j _. now rewrite Hpit.
  - intros b Hb HL Hfirst.
    assert (Hmasked : forall j, j < L -> truthy (item m [b; 0; 0; j]) = false).
    { intros j Hj. apply not_true_is_false. intros Ht.
      apply (Hit b 0 j Hb HL Hj) in Ht. destruct Ht as [Hle Hne].
      assert (j = 0) by lia. subst j. contradiction. }
    split; [exact Hmasked|].
    intros scores H Hsc.
    destruct (where_heads m scores B H L L Hsh Hsc) as (w & Hw & Hwsh & Hwit).
    destruct (softmax_item w B H L L Hwsh) as (p & Hp & _ & Hpit).
    exists w, p. split; [exact Hw|]. split; [exact Hp|].
    intros h j Hh Hj.
    assert (Hrow : forall c, c < L -> item w [b; h; 0; c] = NInf).
    { intros c Hc. rewrite Hwit by assumption. now rewrite Hmasked. }
    split; [now apply Hrow|].
    rewrite Hpit. now apply softmax_row_all_NInf.
Qed.

Lemma fully_masked_rows_witness :
  shape (tokens [[3; 1]%Z]) = [1; 2] /\
  exists m, decoder_mask_of Config_defaults (tokens [[3; 1]%Z]) = Ok m /\
    forall j, j < 2 -> truthy (item m [0; 0; 0; j]) = false.
Proof.
  split; [reflexivity|].
  destruct (fully_masked_rows Config_defaults (tokens [[3; 1]%Z]) 1 2 eq_refl)
    as ((m & Hm & _ & Hpad) & _).
  exists m. split; [exact Hm|].
  apply (Hpad 0); [lia|lia|reflexivity].
Defined.

(** C10, as amended.  For an input [x] of shape [B, L, embed_dim] with
    [embed_dim] even and [dtype] [float32], [PositionalEncoder] returns
    an output of the same shape that is [x] plus the positional encoding
    of the specification, which depends on the position and the feature
    only. *)
Theorem PositionalEncoder_adds_PE (config : Config) (x : ndarray xreal)
    (B L M : nat) :
  shape x = [B; L; 2 * M] ->
  embed_dim config = Z.of_nat (2 * M) ->
  dtype config = float32 ->
  exists y, PositionalEncoder config x = Ok y /\ shape y = [B; L; 2 * M] /\
    forall b t c, b < B -> t < L -> c < 2 * M ->
      item y [b; t; c] = xadd (item x [b; t; c]) (Fin (PE_spec (2 * M) t c)).
Proof. apply PositionalEncoder_ok. Qed.

Lemma PositionalEncoder_adds_PE_witness :
  exists y, PositionalEncoder Config_defaults (full [1; 2; 256] (Fin 0)) = Ok y /\
    item y [0; 1; 3] = xadd (Fin 0) (Fin (PE_spec 256 1 3)).
Proof.
  destruct (PositionalEncoder_adds_PE Config_defaults (full [1; 2; 256] (Fin 0))
              1 2 128 eq_refl eq_refl eq_refl) as (y & Hy & _ & Hit).
  exists y. split; [exact Hy|].
  apply (Hit 0 1 3); lia.
Defined.

(** C10, as stated, fails where the input or the configuration is not
    what the encoding is built for.  Under the default configuration an
    input of shape [1, 1, 3] does not broadcast against the encoding of
    shape [1, 1, 256], and [PositionalEncoder] raises; with
    [embed_dim = 3] it raises on an input of shape [1, 1, 3]; and with
    [dtype = int16] the sum is truncated to an integer, which [sin 1] at
    position 1, feature 0 is not. *)
Lemma PositionalEncoder_outside_its_domain :
  PositionalEncoder Config_defaults (full [1; 1; 3] (Fin 0))
  = Raise (ShapeError "add") /\
  PositionalEncoder (configure 3 float32 14) (full [1; 1; 3] (Fin 0))
  = Raise (ShapeError "broadcast_to") /\
  exists y,
    PositionalEncoder (configure 2 int16 14) (full [1; 2; 2] (Fin 0)) = Ok y /\
    item y [0; 1; 0]
    <> xadd (item (full [1; 2; 2] (Fin 0)) [0; 1; 0]) (Fin (PE_spec 2 1 0)).
Proof.
  split; [reflexivity|]. split; [reflexivity|].
  eexists. split; [reflexivity|].
  cbn [item amap astype full]. rewrite PE_spec_2_1_0. unfold of_Z. cbn [xadd].
  intros H. injection H as H. rewrite Rplus_0_l in H.
  now apply sin_1_not_integer in H.
Qed.

(* ===================================================================== *)
(** ** Further properties: GPT2 *)
(* ===================================================================== *)

Lemma Embed_shape V E dt vars path src :
  0 < V ->
  has_param vars (path ++ ["embedding"]) [V; E] ->
  exists x, Embed (Z.of_nat V) (Z.of_nat E) dt float32 vars path src = Ok x /\
            shape x = (shape src ++ [E])%list.
Proof.
  intros HV Hp. unfold Embed. rewrite !as_dim_of_nat.
  cbn [mbind result_bind].
  destruct (param_init_ok _ _ _ _ (eq_refl : normal float32 = Ok tt) Hp)
    as (p & -> & _).
  cbn [mbind result_bind].
  destruct (V =? 1); [eexists; split; reflexivity|].
  destruct (Nat.eqb_spec V 0); [lia|].
  eexists. split; reflexivity.
Qed.

Lemma LayerNorm_shape vars path x B L n :
  shape x = [B; L; n] ->
  has_param vars (path ++ ["scale"]) [n] ->
  has_param vars (path ++ ["bias"]) [n] ->
  exists y, LayerNorm float32 vars path x = Ok y /\ shape y = [B; L; n].
Proof.
  intros Hx Hs Hb. unfold LayerNorm. rewrite Hx. cbn [rev app].
  destruct (param_ok _ _ _ Hs) as (sp & -> & _).
  destruct (param_ok _ _ _ Hb) as (bp & -> & _).
  cbn [mbind result_bind]. eexists. split; reflexivity.
Qed.

Lemma GPT2_prefix_ok config vars src B L M V :
  shape src = [B; L] ->
  embed_dim config = Z.of_nat (2 * M) ->
  vocab_size config = Z.of_nat V ->
  dtype config = float32 ->
  0 < V ->
  has_param vars ["Embed_0"; "embedding"] [V; 2 * M] ->
  exists m x0 x1,
    decoder_mask_of config src = Ok m /\
    Embed (vocab_size config) (embed_dim config) (id_dtype config)
          (dtype config) vars ["Embed_0"] src = Ok x0 /\
    PositionalEncoder config x0 = Ok x1 /\
    shape x1 = [B; L; 2 * M].
Proof.
  intros Hs He Hv Hd HV Hp.
  destruct (decoder_mask_of_ok config src B L Hs) as (m & _ & _ & Hm & _).
  rewrite He, Hv, Hd.
  destruct (Embed_shape V (2 * M) (id_dtype config) vars ["Embed_0"] src HV Hp)
    as (x0 & Hx0 & Hs0).
  rewrite Hs in Hs0. cbn [app] in Hs0.
  destruct (PositionalEncoder_shape config x0 B L M Hs0 He Hd)
    as (x1 & Hx1 & Hs1).
  now exists m, x0, x1.
Qed.

(** X16.  Under a configuration with [dtype = float32], a non-empty
    vocabulary, an even [embed_dim] and at least one layer, a call of
    [GPT2] on a batch of shape [B, L] with the embedding table present
    ends exactly in the [TypeError] of the first decoder-layer call: the
    mask, the embedding and the positional encoding before it all
    succeed. *)
Theorem GPT2_raises_TypeError (config : Config) (vars : variables)
    (src : ndarray Z) (train return_attn : bool) (B L M V : nat) :
  shape src = [B; L] ->
  embed_dim config = Z.of_nat (2 * M) ->
  vocab_size config = Z.of_nat V ->
  dtype config = float32 ->
  0 < V ->
  has_param vars ["Embed_0"; "embedding"] [V; 2 * M] ->
  (1 <= num_layers config)%Z ->
  GPT2 config vars src train return_attn
  = Raise (TypeError
      "TransformerDecoderLayer.__call__() missing required positional arguments").
Proof.
  intros Hs He Hv Hd HV Hp Hn.
  destruct (GPT2_prefix_ok config vars src B L M V Hs He Hv Hd HV Hp)
    as (m & x0 & x1 & Hm & Hx0 & Hx1 & _).
  unfold GPT2, ndim. rewrite Hs. cbn [length Nat.eqb assert_ mbind result_bind].
  rewrite Hm. cbn [mbind result_bind].
  replace (attr_int config "vocab_size") with (Ok (vocab_size config)) by reflexivity.
  replace (attr_int config "embed_dim") with (Ok (embed_dim config)) by reflexivity.
  replace (attr_dtype config "id_dtype") with (Ok (id_dtype config)) by reflexivity.
  replace (attr_dtype config "dtype") with (Ok (dtype config)) by reflexivity.
  replace (attr_int config "num_layers") with (Ok (num_layers config)) by reflexivity.
  cbn [mbind result_bind]. rewrite Hx0. cbn [mbind result_bind].
  rewrite Hx1. cbn [mbind result_bind].
  destruct (Z.to_nat (num_layers config)) as [|n] eqn:E; [lia|].
  cbn [seq map]. now rewrite decoder_layers_raise.
Qed.

Lemma GPT2_raises_TypeError_witness :
  GPT2 (configure 4 float32 2)
       (zero_variables [(["Embed_0"; "embedding"], [Z.to_nat 8000; 4])])
       (tokens [[1; 2; 3]%Z]) true true
  = Raise (TypeError
      "TransformerDecoderLayer.__call__() missing required positional arguments").
Proof.
  apply (GPT2_raises_TypeError _ _ _ _ _ 1 3 2 (Z.to_nat 8000));
    [reflexivity | reflexivity | reflexivity | reflexivity
    | apply Nat2Z.inj_lt; rewrite Z2Nat.id; lia
    | apply zero_variables_has_param; reflexivity | cbn; lia].
Defined.

(** X17.  Without layers ([num_layers <= 0]), under a configuration with
    [dtype = float32], a non-empty vocabulary and a positive even
    [embed_dim], and with the parameters [GPT2] owns present, the pass
    returns logits of shape [batch, seq_len, vocab_size]; with
    [return_attn] they come paired with an empty list. *)
Theorem GPT2_without_layers_returns (config : Config) (vars : variables)
    (src : ndarray Z) (train : bool) (B L M V : nat) :
  shape src = [B; L] ->
  embed_dim config = Z.of_nat (2 * M) ->
  vocab_size config = Z.of_nat V ->
  dtype config = float32 ->
  0 < V -> 0 < M ->
  (num_layers config <= 0)%Z ->
  has_param vars ["Embed_0"; "embedding"] [V; 2 * M] ->
  has_param vars ["LayerNorm_0"; "scale"] [2 * M] ->
  has_param vars ["LayerNorm_0"; "bias"] [2 * M] ->
  has_param vars ["Dense_0"; "kernel"] [2 * M; V] ->
  has_param vars ["Dense_0"; "bias"] [V] ->
  exists logits,
    shape logits = [B; L; V] /\
    GPT2 config vars src train false = Ok (PArray logits) /\
    GPT2 config vars src train true = Ok (PTuple [PArray logits; PList []]).
Proof.
  intros Hs He Hv Hd HV HM Hn Hp Hls Hlb Hdk Hdb.
  destruct (GPT2_prefix_ok config vars src B L M V Hs He Hv Hd HV Hp)
    as (m & x0 & x1 & Hm & Hx0 & Hx1 & Hs1).
  destruct (LayerNorm_shape vars ["LayerNorm_0"]
              (amap (astype (dtype config)) x1) B L (2 * M) Hs1 Hls Hlb)
    as (x2 & Hx2 & Hs2).
  rewrite <- Hd in Hx2.
  assert (Hpd : promote_dtype (Some (dtype config)) = Ok tt)
    by now rewrite Hd.
  assert (HM2 : 0 < 2 * M) by lia.
  destruct (Dense_shape V (Some (dtype config)) vars ["Dense_0"] x2 B L (2 * M)
              Hs2 HM2 HV Hpd Hdk Hdb) as (lg & Hlg & Hsl).
  exists (amap (astype (dtype config)) lg). split; [exact Hsl|].
  assert (Hrun : forall ra,
            GPT2 config vars src train ra
            = if ra then Ok (PTuple [PArray (amap (astype (dtype config)) lg); PList []])
              else Ok (PArray (amap (astype (dtype config)) lg))).
  { intros ra. unfold GPT2, ndim. rewrite Hs.
    cbn [length Nat.eqb assert_ mbind result_bind].
    rewrite Hm. cbn [mbind result_bind].
    replace (attr_int config "vocab_size") with (Ok (vocab_size config)) by reflexivity.
    replace (attr_int config "embed_dim") with (Ok (embed_dim config)) by reflexivity.
    replace (attr_dtype config "id_dtype") with (Ok (id_dtype config)) by reflexivity.
    replace (attr_dtype config "dtype") with (Ok (dtype config)) by reflexivity.
    replace (attr_int config "num_layers") with (Ok (num_layers config)) by reflexivity.
    cbn [mbind result_bind]. rewrite Hx0. cbn [mbind result_bind].
    rewrite Hx1. cbn [mbind result_bind].
    replace (Z.to_nat (num_layers config)) with 0 by lia.
    cbn [seq map decoder_layers mbind result_bind].
    rewrite Hx2. cbn [mbind result_bind].
    rewrite Hv, Hlg. cbn [mbind result_bind]. reflexivity. }
  split; [apply (Hrun false)|apply (Hrun true)].
Qed.

Lemma GPT2_without_layers_returns_witness :
  exists logits,
    shape logits = [1; 3; Z.to_nat 8000] /\
    GPT2 (configure 256 float32 0) gpt2_own_variables (tokens [[1; 2; 3]%Z])
         true false = Ok (PArray logits) /\
    GPT2 (configure 256 float32 0) gpt2_own_variables (tokens [[1; 2; 3]%Z])
         true true = Ok (PTuple [PArray logits; PList []]).
Proof.
  apply (GPT2_without_layers_returns _ _ _ _ 1 3 128 (Z.to_nat 8000));
    [reflexivity | reflexivity | reflexivity | reflexivity
    | apply Nat2Z.inj_lt; rewrite Z2Nat.id; lia | lia | cbn; lia
    | apply zero_variables_has_param; reflexivity
    | apply zero_variables_has_param; reflexivity
    | apply zero_variables_has_param; reflexivity
    | apply zero_variables_has_param; reflexivity
    | apply zero_variables_has_param; reflexivity].
Defined.

(** X18.  Whenever [GPT2] returns, there was no decoder layer to run
    ([num_layers <= 0]), [src] is 2-dimensional, the logits have the
    shape [batch, seq_len, vocab_size], and the attention list that comes
    with them under [return_attn] is empty: no call returns an attention
    matrix. *)
Theorem GPT2_returns_only_without_layers (config : Config) (vars : variables)
    (src : ndarray Z) (train return_attn : bool) (r : pyval) :
  GPT2 config vars src train return_attn = Ok r ->
  (num_layers config <= 0)%Z /\
  exists B L V logits,
    shape src = [B; L] /\
    vocab_size config = Z.of_nat V /\
    shape logits = [B; L; V] /\
    r = if return_attn then PTuple [PArray logits; PList []]
        else PArray logits.
Proof.
  intros H. unfold GPT2 in H.
  bind_inv H u9 Hnd. apply assert_Ok in Hnd.
  bind_inv H m Hu10.
  change (attr_int config "vocab_size") with (Ok (vocab_size config)) in H.
  change (attr_int config "embed_dim") with (Ok (embed_dim config)) in H.
  change (attr_dtype config "id_dtype") with (Ok (id_dtype config)) in H.
  change (attr_dtype config "dtype") with (Ok (dtype config)) in H.
  change (attr_int config "num_layers") with (Ok (num_layers config)) in H.
  cbn [mbind result_bind] in H.
  bind_inv H x0 Hx0.
  bind_inv H x1 Hx1.
  bind_inv H u11 Hl. destruct u11 as [x2 l].
  bind_inv H x3 Hx3.
  bind_inv H lg Hlg.
  unfold ndim in Hnd.
  destruct (shape src) as [|B [|L [|? ?]]] eqn:Hs; try discriminate.
  assert (Hs0 : shape x0 = [B; L; Z.to_nat (embed_dim config)]).
  { destruct (Embed_Ok_shape _ _ _ _ _ _ _ _ Hx0) as (vf & Hf & [Hv|Hv]).
    - rewrite Hv, Hs. cbn [app].
      apply as_dim_Ok in Hf. rewrite Hf, Nat2Z.id. reflexivity.
    - exfalso. unfold PositionalEncoder, ndim in Hx1. rewrite Hv in Hx1.
      discriminate Hx1. }
  pose proof (PositionalEncoder_Ok_shape _ _ _ _ _ Hs0 Hx1) as Hs1.
  destruct (Z.to_nat (num_layers config)) as [|n] eqn:En.
  - cbn [seq map decoder_layers] in Hl. injection Hl as <- <-.
    split; [lia|].
    apply LayerNorm_Ok_shape in Hx3. cbn [amap shape] in Hx3.
    apply Dense_Ok_shape in Hlg as (V & HV & Hlg).
    rewrite Hx3, Hs1 in Hlg. cbn [removelast app] in Hlg.
    exists B, L, V, (amap (astype (dtype config)) lg).
    split; [reflexivity|]. split; [now apply as_dim_Ok|].
    split; [exact Hlg|]. destruct return_attn; now injection H as <-.
  - cbn [seq map] in Hl. now rewrite decoder_layers_raise in Hl.
Qed.

Lemma GPT2_returns_only_without_layers_witness :
  exists r,
    GPT2 (configure 256 float32 0) gpt2_own_variables (tokens [[1; 2; 3]%Z])
         true true = Ok r /\
    (num_layers (configure 256 float32 0) <= 0)%Z /\
    exists B L V logits,
      shape (tokens [[1; 2; 3]%Z]) = [B; L] /\
      vocab_size (configure 256 float32 0) = Z.of_nat V /\
      shape logits = [B; L; V] /\
      r = PTuple [PArray logits; PList []].
Proof.
  eexists. split; [reflexivity|].
  apply (GPT2_returns_only_without_layers (configure 256 float32 0)
           gpt2_own_variables (tokens [[1; 2; 3]%Z]) true true).
  reflexivity.
Defined.

Lemma decoder_layers_ignore_train_and_rng config p rng rng' mask train train'
    layers x l :
  decoder_layers config (Variables p rng) mask train layers x l
  = decoder_layers config (Variables p rng') mask train' layers x l.
Proof. destruct layers; reflexivity. Qed.

(** X19.  [GPT2] never uses [train] and never draws from the dropout stream:
    its result, value or exception, is the same whatever [train] is and
    whether or not a stream is given. *)
Theorem GPT2_ignores_train_and_rng (config : Config)
    (p : list string -> option (ndarray xreal))
    (rng rng' : option (list string -> list nat -> bool))
    (src : ndarray Z) (train train' return_attn : bool) :
  GPT2 config (Variables p rng) src train return_attn
  = GPT2 config (Variables p rng') src train' return_attn.
Proof.
  unfold GPT2.
  repeat (apply bind_congr; [reflexivity|intros ?]).
  apply bind_congr; [apply decoder_layers_ignore_train_and_rng|intros [? ?]].
  reflexivity.
Qed.

(* ===================================================================== *)
(** ** Further properties: attention and the decoder layer *)
(* ===================================================================== *)

(** X6.  [MultiHeadAttention] has two outcomes only, decided by the shapes of
    its arguments: [AssertionError] when one of its six checks fails, and
    [AttributeError] for [config.k_dim] otherwise.  The configuration,
    the parameters and the contents of the arrays play no part. *)
Theorem MultiHeadAttention_outcome (config : Config) (vars : variables)
    (path : list string) (q k v : ndarray xreal)
    (mask : option (ndarray xreal)) :
  MultiHeadAttention config vars path q k v mask
  = Raise
      (if (ndim q =? 3) && (ndim k =? 3) && (ndim v =? 3)
          && (nth 0 (shape q) 0 =? nth 0 (shape k) 0)
          && (nth 0 (shape k) 0 =? nth 0 (shape v) 0)
          && (nth 1 (shape k) 0 =? nth 1 (shape v) 0)
          && match mask with Some m => ndim m =? 4 | None => true end
       then AttributeError "k_dim" else AssertionError).
Proof.
  unfold MultiHeadAttention.
  destruct (ndim q =? 3); [|reflexivity].
  destruct (ndim k =? 3); [|reflexivity].
  destruct (ndim v =? 3); [|reflexivity].
  destruct (nth 0 (shape q) 0 =? nth 0 (shape k) 0); [|reflexivity].
  destruct (nth 0 (shape k) 0 =? nth 0 (shape v) 0); [|reflexivity].
  destruct (nth 1 (shape k) 0 =? nth 1 (shape v) 0); [|reflexivity].
  destruct mask as [m|]; [destruct (ndim m =? 4)|]; reflexivity.
Qed.

(** X14.  [TransformerDecoderLayer] likewise: [AssertionError] when [x] or
    [memory] is not 3-dimensional or a mask is not 4-dimensional, and
    otherwise the [AttributeError] of its self-attention, whose own
    checks always pass on the arguments [(x, x, x, decoder_mask)].  No
    dropout, residual connection, layer norm or feed-forward block is
    ever reached. *)
Theorem TransformerDecoderLayer_outcome (config : Config) (vars : variables)
    (path : list string)
    (x memory decoder_mask encoder_decoder_mask : ndarray xreal)
    (deterministic : bool) :
  TransformerDecoderLayer config vars path x memory decoder_mask
                          encoder_decoder_mask deterministic
  = Raise
      (if (ndim x =? 3) && (ndim memory =? 3) && (ndim decoder_mask =? 4)
          && (ndim encoder_decoder_mask =? 4)
       then AttributeError "k_dim" else AssertionError).
Proof.
  unfold TransformerDecoderLayer.
  destruct (ndim x =? 3) eqn:Ex; [|reflexivity].
  destruct (ndim memory =? 3); [|reflexivity].
  destruct (ndim decoder_mask =? 4) eqn:Em; [|reflexivity].
  destruct (ndim encoder_decoder_mask =? 4); [|reflexivity].
  cbn [andb assert_ mbind result_bind].
  apply Nat.eqb_eq in Ex, Em. unfold ndim in Ex.
  destruct (shape x) as [|B [|L [|F [|? ?]]]] eqn:Hx; try discriminate Ex.
  now rewrite (MultiHeadAttention_AttributeError config vars _ x x x
                 (Some decoder_mask) B L L F F F Hx Hx Hx Em).
Qed.

(** X15.  A call of the decoder layer never returns, whatever it is given; with
    any number of positional arguments other than five it raises
    [TypeError] before the body runs. *)
Theorem TransformerDecoderLayer_call_never_returns (config : Config)
    (vars : variables) (path : list string) (args : list pyval) :
  raises (TransformerDecoderLayer__call__ config vars path args) /\
  (length args <> 5 ->
   exists msg,
     TransformerDecoderLayer__call__ config vars path args
     = Raise (TypeError msg)).
Proof.
  unfold TransformerDecoderLayer__call__, bind_positional.
  cbn [TransformerDecoderLayer_params length].
  destruct (Nat.ltb_spec (length args) 5) as [Hlt|Hge].
  { split; [apply raises_Raise|intros _; eexists; reflexivity]. }
  destruct (Nat.ltb_spec 5 (length args)) as [Hgt|Hle].
  { split; [apply raises_Raise|intros _; eexists; reflexivity]. }
  split; [|lia].
  cbn [mbind result_bind].
  destruct args as [|x [|m [|dm [|em [|det [|? ?]]]]]];
    try (cbn [length] in Hge, Hle; lia).
  apply raises_bind_r; intros ?. apply raises_bind_r; intros ?.
  apply raises_bind_r; intros ?. apply raises_bind_r; intros ?.
  apply raises_bind_r; intros ?.
  apply raises_bind_l, TransformerDecoderLayer_raises.
Qed.

Lemma TransformerDecoderLayer_call_never_returns_witness :
  exists msg,
    TransformerDecoderLayer__call__ Config_defaults (zero_variables []) []
      [PArray (full [1; 2; 256] (Fin 0)); PArray (full [1; 1; 2; 2] (Fin 1));
       PBool true; PBool true; PBool true; PBool true]
    = Raise (TypeError msg).
Proof.
  apply (TransformerDecoderLayer_call_never_returns Config_defaults
           (zero_variables []) []
           [PArray (full [1; 2; 256] (Fin 0)); PArray (full [1; 1; 2; 2] (Fin 1));
            PBool true; PBool true; PBool true; PBool true]).
  cbn [length]. lia.
Defined.

(* ===================================================================== *)
(** ** Further properties: the positional encoder *)
(* ===================================================================== *)

(** The steps of [PositionalEncoder] before the addition, on an input of
    any width under a configuration with [embed_dim = 2 * M]. *)
Ltac run_PositionalEncoder_pe Hx He Hd :=
  unfold PositionalEncoder, ndim; rewrite Hx;
  cbn [length Nat.eqb assert_ mbind result_bind nth];
  match goal with
  | |- context [attr_int ?c "embed_dim"] =>
      replace (attr_int c "embed_dim") with (Ok (embed_dim c)) by reflexivity;
      replace (attr_dtype c "dtype") with (Ok (dtype c)) by reflexivity
  end;
  rewrite He, Hd; cbn [mbind result_bind]; rewrite as_dim_of_nat;
  cbn [mbind result_bind arange_step];
  unfold einsum_ij_kl_jl; cbn [shape newaxis0 arange_values amap];
  rewrite slice_len_all, slice_len_even_0; cbn [mbind result_bind];
  erewrite (at_set_stride_eq 0 2)
    by first [reflexivity | apply slice_len_even_0];
  cbn [mbind result_bind];
  erewrite (at_set_stride_eq 1 2)
    by first [reflexivity | apply slice_len_even_1];
  cbn [mbind result_bind].

Lemma PositionalEncoder_steps config x B L d M :
  shape x = [B; L; d] ->
  embed_dim config = Z.of_nat (2 * M) ->
  dtype config = float32 ->
  exists pe,
    shape pe = [B; L; 2 * M] /\
    (forall b t c, b < B -> t < L -> c < 2 * M ->
       item pe [b; t; c] = Fin (PE_spec (2 * M) t c)) /\
    PositionalEncoder config x
    = (s ← broadcast2 "add" xadd x pe; Ok (amap (astype float32) s)).
Proof.
  intros Hx He Hd. run_PositionalEncoder_pe Hx He Hd.
  eexists. split; [|split]; [| |reflexivity]; [reflexivity|].
  intros b t c Hb Ht Hc.
  cbn [item amap]. unfold bindex. cbn [length Nat.sub drop zip_with nth].
  unfold PE_spec.
  destruct (Nat.Even_or_Odd c) as [[k Hk]|[k Hk]]; subst c.
  - assert (E1 : (1 <=? 2 * k) && ((2 * k - 1) mod 2 =? 0) = false).
    { destruct k as [|k]; [reflexivity|].
      replace (2 * S k - 1) with (2 * k + 1) by lia.
      rewrite half_mod_odd. cbn [Nat.eqb]. apply andb_false_r. }
    rewrite E1, Nat.sub_0_r, half_mod_even, half_even, even_double.
    cbn [Nat.leb Nat.eqb andb].
    rewrite !bfix by lia. rewrite radians_value by lia. reflexivity.
  - replace (2 * k + 1 - 1) with (2 * k) by lia.
    rewrite half_mod_even, half_even, half_odd, even_odd.
    replace (1 <=? 2 * k + 1) with true by (symmetry; apply Nat.leb_le; lia).
    cbn [Nat.eqb andb].
    rewrite !bfix by lia. rewrite radians_value by lia. reflexivity.
Qed.

Lemma broadcast_last_1 B L n :
  broadcast_shapes [B; L; 1] [B; L; n] = Some [B; L; n].
Proof.
  unfold broadcast_shapes. cbn [rev app bshape_rev].
  now rewrite bdim_1_l, !bdim_refl.
Qed.

Lemma broadcast_last_1_r B L n :
  broadcast_shapes [B; L; n] [B; L; 1] = Some [B; L; n].
Proof.
  unfold broadcast_shapes. cbn [rev app bshape_rev].
  now rewrite bdim_1_r, !bdim_refl.
Qed.

Lemma bdim_mismatch d e : d <> e -> d <> 1 -> e <> 1 -> bdim d e = None.
Proof.
  intros H1 H2 H3. unfold bdim.
  destruct (Nat.eqb_spec d e); [contradiction|].
  destruct (Nat.eqb_spec d 1); [contradiction|].
  destruct (Nat.eqb_spec e 1); [contradiction|]. reflexivity.
Qed.

(** X2.  An input whose last axis has size 1 is broadcast by
    [PositionalEncoder]: the output has [embed_dim] features, each of
    them the single input feature plus the encoding. *)
Theorem PositionalEncoder_broadcasts_width_1 (config : Config)
    (x : ndarray xreal) (B L M : nat) :
  shape x = [B; L; 1] ->
  embed_dim config = Z.of_nat (2 * M) ->
  dtype config = float32 ->
  exists y, PositionalEncoder config x = Ok y /\
    shape y = [B; L; 2 * M] /\
    forall b t c, b < B -> t < L -> c < 2 * M ->
      item y [b; t; c]
      = xadd (item x [b; t; 0]) (Fin (PE_spec (2 * M) t c)).
Proof.
  intros Hx He Hd.
  destruct (PositionalEncoder_steps config x B L 1 M Hx He Hd)
    as (pe & Hs & Hv & ->).
  unfold broadcast2. rewrite Hx, Hs, broadcast_last_1.
  cbn [mbind result_bind]. eexists. split; [reflexivity|].
  split; [reflexivity|].
  intros b t c Hb Ht Hc. cbn [item amap astype].
  unfold bindex. cbn [length Nat.sub drop zip_with nth Nat.eqb].
  rewrite !bfix by assumption. now rewrite (Hv b t c Hb Ht Hc).
Qed.

Lemma PositionalEncoder_broadcasts_width_1_witness :
  exists y, PositionalEncoder (configure 4 float32 14)
              (full [1; 2; 1] (Fin 0)) = Ok y /\
    shape y = [1; 2; 4] /\
    forall b t c, b < 1 -> t < 2 -> c < 4 ->
      item y [b; t; c]
      = xadd (item (full [1; 2; 1] (Fin 0)) [b; t; 0])
             (Fin (PE_spec 4 t c)).
Proof.
  apply (PositionalEncoder_broadcasts_width_1 (configure 4 float32 14)
           (full [1; 2; 1] (Fin 0)) 1 2 2); reflexivity.
Defined.

(** X3.  Under a configuration with [dtype = float32] and an even
    [embed_dim], an input whose last axis is neither 1 nor [embed_dim]
    wide is refused at the addition: [PositionalEncoder] raises the shape
    error of [x + pe]. *)
Theorem PositionalEncoder_width_mismatch (config : Config)
    (x : ndarray xreal) (B L d M : nat) :
  shape x = [B; L; d] ->
  embed_dim config = Z.of_nat (2 * M) ->
  dtype config = float32 ->
  d <> 2 * M -> d <> 1 ->
  PositionalEncoder config x = Raise (ShapeError "add").
Proof.
  intros Hx He Hd Hne H1.
  destruct (PositionalEncoder_steps config x B L d M Hx He Hd)
    as (pe & Hs & _ & ->).
  unfold broadcast2, broadcast_shapes. rewrite Hx, Hs.
  cbn [rev app bshape_rev]. rewrite bdim_mismatch by lia. reflexivity.
Qed.

Lemma PositionalEncoder_width_mismatch_witness :
  PositionalEncoder Config_defaults (full [1; 2; 3] (Fin 0))
  = Raise (ShapeError "add").
Proof.
  apply (PositionalEncoder_width_mismatch Config_defaults
           (full [1; 2; 3] (Fin 0)) 1 2 3 128);
    [reflexivity | reflexivity | reflexivity | lia | lia].
Defined.






Lemma PE_spec_0 E c : PE_spec E 0 c = if Nat.even c then 0%R else 1%R.
Proof.
  unfold PE_spec. cbn [INR]. rewrite Rmult_0_l.
  destruct (Nat.even c); [apply sin_0|apply cos_0].
Qed.

Lemma xadd_0_r x : xadd x (Fin 0) = x.
Proof. destruct x; cbn; try reflexivity. now rewrite Rplus_0_r. Qed.

(** X1.  At the first position of every sequence the encoding is
    [sin 0 = 0] on the even features and [cos 0 = 1] on the odd ones,
    whatever [embed_dim] is: on a well-shaped input under
    [dtype = float32], [PositionalEncoder] returns the even features of
    position 0 as they are (also when they are infinite or NaN), and the
    odd ones as [x + 1]. *)
Theorem PositionalEncoder_first_position (config : Config)
    (x : ndarray xreal) (B L M : nat) :
  shape x = [B; L; 2 * M] ->
  embed_dim config = Z.of_nat (2 * M) ->
  dtype config = float32 ->
  0 < L ->
  exists y, PositionalEncoder config x = Ok y /\
    forall b c, b < B -> c < 2 * M ->
      item y [b; 0; c]
      = if Nat.even c then item x [b; 0; c]
        else xadd (item x [b; 0; c]) (Fin 1).
Proof.
  intros Hx He Hd HL.
  destruct (PositionalEncoder_ok config x B L M Hx He Hd) as (y & Hy & _ & Hv).
  exists y. split; [exact Hy|].
  intros b c Hb Hc. rewrite (Hv b 0 c Hb HL Hc), PE_spec_0.
  destruct (Nat.even c); [apply xadd_0_r|reflexivity].
Qed.

Lemma PositionalEncoder_first_position_witness :
  exists y, PositionalEncoder Config_defaults (full [1; 2; 256] (Fin 7)) = Ok y /\
    forall b c, b < 1 -> c < 256 ->
      item y [b; 0; c]
      = if Nat.even c then item (full [1; 2; 256] (Fin 7)) [b; 0; c]
        else xadd (item (full [1; 2; 256] (Fin 7)) [b; 0; c]) (Fin 1).
Proof.
  apply (PositionalEncoder_first_position Config_defaults
           (full [1; 2; 256] (Fin 7)) 1 2 128);
    [reflexivity | reflexivity | reflexivity | lia].
Defined.

Lemma radians_value_1 n t :
  xsum 1 (fun i => xsum 1 (fun k =>
    xmul (item (newaxis0 (arange_values n 1 float32)) [i; t])
         (item (newaxis0 (amap xexp (amap (fun a => xmul a (xdiv (xneg (Fin (ln 10000))) (of_Z (Z.of_nat 1))))
                            (arange_values 1 2 float32)))) [k; 0])))
  = Fin (INR t).
Proof.
  rewrite radians_value by lia. f_equal.
  replace (- INR (2 * 0) / INR 1)%R with 0%R
    by (change (INR (2 * 0)) with 0%R; change (INR 1) with 1%R; lra).
  unfold Rpower. rewrite Rmult_0_l, exp_0. ring.
Qed.

(** X5.  With [embed_dim = 1] the encoder has a sine column and no cosine
    column: an input of any width [d] is accepted, the output keeps its
    shape, and [sin t] is added to every feature at position [t]. *)
Theorem PositionalEncoder_embed_dim_1 (config : Config) (x : ndarray xreal)
    (B L d : nat) :
  shape x = [B; L; d] ->
  embed_dim config = 1%Z ->
  dtype config = float32 ->
  exists y, PositionalEncoder config x = Ok y /\
    shape y = [B; L; d] /\
    forall b t c, b < B -> t < L -> c < d ->
      item y [b; t; c] = xadd (item x [b; t; c]) (Fin (sin (INR t))).
Proof.
  intros Hx He Hd. unfold PositionalEncoder, ndim. rewrite Hx.
  cbn [length Nat.eqb assert_ mbind result_bind nth].
  replace (attr_int config "embed_dim") with (Ok (embed_dim config)) by reflexivity.
  replace (attr_dtype config "dtype") with (Ok (dtype config)) by reflexivity.
  rewrite He, Hd. change 1%Z with (Z.of_nat 1).
  cbn [mbind result_bind]. rewrite as_dim_of_nat.
  cbn [mbind result_bind arange_step].
  unfold einsum_ij_kl_jl. cbn [shape newaxis0 arange_values amap].
  rewrite slice_len_all. change (slice_len 1 0 2) with 1.
  cbn [mbind result_bind].
  erewrite (at_set_stride_eq 0 2) by reflexivity.
  cbn [mbind result_bind].
  unfold at_set_stride. cbn [shape]. change (slice_len 1 1 2) with 0.
  unfold broadcast_to, broadcast_shapes. cbn [shape amap rev app bshape_rev].
  rewrite bdim_1_l, bdim_refl. cbn [rev app].
  rewrite decide_True by reflexivity. cbn [mbind result_bind].
  unfold broadcast2. cbn [shape]. rewrite Hx.
  fold (broadcast_shapes [B; L; d] [B; L; 1]). rewrite broadcast_last_1_r.
  eexists. split; [reflexivity|]. split; [reflexivity|].
  intros b t c Hb Ht Hc. cbn [item amap astype full].
  unfold bindex. cbn [length Nat.sub drop zip_with nth Nat.eqb Nat.leb andb].
  rewrite !bfix by assumption.
  cbn [Nat.modulo Nat.div Nat.divmod fst snd Nat.sub Nat.eqb item amap].
  rewrite radians_value_1. reflexivity.
Qed.

Lemma PositionalEncoder_embed_dim_1_witness :
  exists y, PositionalEncoder (configure 1 float32 14)
              (full [1; 2; 3] (Fin 0)) = Ok y /\
    shape y = [1; 2; 3] /\
    forall b t c, b < 1 -> t < 2 -> c < 3 ->
      item y [b; t; c]
      = xadd (item (full [1; 2; 3] (Fin 0)) [b; t; c]) (Fin (sin (INR t))).
Proof.
  apply (PositionalEncoder_embed_dim_1 (configure 1 float32 14)
           (full [1; 2; 3] (Fin 0)) 1 2 3); reflexivity.
Defined.

(* ===================================================================== *)
(** ** Further properties: the feed-forward block *)
(* ===================================================================== *)

Ltac read_FeedForward_config :=
  match goal with
  | |- context [attr_int ?c "ff_dim"] =>
      replace (attr_int c "ff_dim") with (Ok (ff_dim c)) by reflexivity;
      replace (attr_dtype c "dtype") with (Ok (dtype c)) by reflexivity;
      replace (attr_float c "dropout_rate") with (Ok (dropout_rate c))
        by reflexivity;
      replace (attr_int c "embed_dim") with (Ok (embed_dim c)) by reflexivity
  end.

Lemma param_Some vars path p :
  params vars path = Some p -> param vars path (shape p) = Ok p.
Proof.
  intros H. unfold param. rewrite H. now rewrite decide_True by reflexivity.
Qed.

Lemma Dropout_deterministic rate vars path x :
  Dropout rate vars path x true = Ok x.
Proof. unfold Dropout. now rewrite orb_true_r. Qed.

Lemma Dropout_rate_0 vars path x deterministic :
  Dropout 0 vars path x deterministic = Ok x.
Proof. unfold Dropout. destruct (Req_dec_T 0 0); [reflexivity|contradiction]. Qed.

Lemma Dropout_rate_1 vars path x :
  Dropout 1 vars path x false = Ok (full (shape x) (Fin 0)).
Proof.
  unfold Dropout. destruct (Req_dec_T 1 0) as [H|_]; [lra|].
  cbn [orb]. destruct (Req_dec_T 1 1); [reflexivity|contradiction].
Qed.

Lemma Dropout_no_rng rate vars path x :
  rate <> 0%R -> rate <> 1%R -> dropout_rng vars = None ->
  Dropout rate vars path x false = Raise InvalidRngError.
Proof.
  intros H0 H1 Hr. unfold Dropout.
  destruct (Req_dec_T rate 0); [contradiction|]. cbn [orb].
  destruct (Req_dec_T rate 1); [contradiction|]. now rewrite Hr.
Qed.

Lemma Dense_value features dt vars path x K b B L n :
  shape x = [B; L; n] ->
  0 < n -> 0 < features -> promote_dtype dt = Ok tt ->
  params vars (path ++ ["kernel"]) = Some K -> shape K = [n; features] ->
  params vars (path ++ ["bias"]) = Some b -> shape b = [features] ->
  Dense (Z.of_nat features) dt vars path x
  = Ok (NDArray [B; L; features] (fun idx =>
          let pre := removelast idx in
          let c := List.last idx 0 in
          xadd (xsum n (fun i =>
                  xmul (cast dt (item x (pre ++ [i])))
                       (cast dt (item K [i; c]))))
               (cast dt (item b [c])))).
Proof.
  intros Hx Hn Hf Hdt HK SK Hb Sb. unfold Dense. rewrite as_dim_of_nat, Hx.
  cbn [mbind result_bind rev app].
  unfold param_init. rewrite HK, (lecun_normal_ok n features Hn Hf).
  cbn [mbind result_bind]. rewrite decide_True by exact SK.
  rewrite <- Sb, (param_Some _ _ _ Hb), Hdt.
  reflexivity.
Qed.

(** X10.  In deterministic mode with [dtype = float32] and positive
    widths, [FeedForward] is [Dense_1(relu(Dense_0(x)))] with the
    dropouts the identity: each
    output feature is the bias plus the weighted sum of the rectified
    hidden features, and the hidden features of a position are computed
    from the input features of that position alone. *)
Theorem FeedForward_deterministic (config : Config) (vars : variables)
    (path : list string) (x W0 b0 W1 b1 : ndarray xreal)
    (B L n E F : nat) :
  shape x = [B; L; n] ->
  embed_dim config = Z.of_nat E ->
  ff_dim config = Z.of_nat F ->
  dtype config = float32 ->
  0 < n -> 0 < E -> 0 < F ->
  params vars ((path ++ ["Dense_0"]) ++ ["kernel"]) = Some W0 ->
  params vars ((path ++ ["Dense_0"]) ++ ["bias"]) = Some b0 ->
  params vars ((path ++ ["Dense_1"]) ++ ["kernel"]) = Some W1 ->
  params vars ((path ++ ["Dense_1"]) ++ ["bias"]) = Some b1 ->
  shape W0 = [n; F] -> shape b0 = [F] ->
  shape W1 = [F; E] -> shape b1 = [E] ->
  exists y, FeedForward config vars path x true = Ok y /\
    shape y = [B; L; E] /\
    forall b t c,
      item y [b; t; c]
      = xadd (xsum F (fun j =>
                xmul (xmax (Fin 0)
                        (xadd (xsum n (fun i =>
                                 xmul (item x [b; t; i]) (item W0 [i; j])))
                              (item b0 [j])))
                     (item W1 [j; c])))
             (item b1 [c]).
Proof.
  intros Hx He Hf Hd Hn HE HF K0 B0 K1 B1 SK0 SB0 SK1 SB1.
  unfold FeedForward, ndim. rewrite Hx.
  cbn [length Nat.eqb assert_ mbind result_bind].
  read_FeedForward_config. rewrite He, Hf, Hd. cbn [mbind result_bind].
  rewrite (Dense_value F (Some float32) vars _ x W0 b0 B L n Hx Hn HF eq_refl
             K0 SK0 B0 SB0).
  cbn [mbind result_bind]. rewrite Dropout_deterministic.
  cbn [mbind result_bind].
  erewrite (Dense_value E (Some float32) vars _ _ W1 b1 B L F)
    by (reflexivity || eassumption).
  cbn [mbind result_bind]. rewrite Dropout_deterministic.
  cbn [mbind result_bind].
  eexists. split; [reflexivity|]. split; [reflexivity|].
  intros b t c. reflexivity.
Qed.

Lemma FeedForward_deterministic_witness :
  exists y, FeedForward Config_defaults feed_forward_256 []
              (full [1; 2; 256] (Fin 1)) true = Ok y /\
    shape y = [1; 2; 256] /\
    forall b t c,
      item y [b; t; c]
      = xadd (xsum 512 (fun j =>
                xmul (xmax (Fin 0)
                        (xadd (xsum 256 (fun i =>
                                 xmul (item (full [1; 2; 256] (Fin 1)) [b; t; i])
                                      (item (full [256; 512] (Fin 0)) [i; j])))
                              (item (full [512] (Fin 0)) [j])))
                     (item (full [512; 256] (Fin 0)) [j; c])))
             (item (full [256] (Fin 0)) [c]).
Proof.
  apply (FeedForward_deterministic Config_defaults feed_forward_256 []
           (full [1; 2; 256] (Fin 1)) _ _ _ _ 1 2 256 256 512);
    first [reflexivity | lia].
Defined.

(** X11.  In training mode (not deterministic), under [dtype = float32]
    with a non-empty input width and a positive [ff_dim], with a dropout
    rate other than 0 and 1 and no ['dropout'] random stream given,
    [FeedForward] raises flax's [InvalidRngError] at its first dropout,
    after the first dense layer. *)
Theorem FeedForward_needs_dropout_rng (config : Config) (vars : variables)
    (path : list string) (x : ndarray xreal) (B L n F : nat) :
  shape x = [B; L; n] ->
  ff_dim config = Z.of_nat F ->
  dtype config = float32 ->
  0 < n -> 0 < F ->
  has_param vars ((path ++ ["Dense_0"]) ++ ["kernel"]) [n; F] ->
  has_param vars ((path ++ ["Dense_0"]) ++ ["bias"]) [F] ->
  dropout_rate config <> 0%R -> dropout_rate config <> 1%R ->
  dropout_rng vars = None ->
  FeedForward config vars path x false = Raise InvalidRngError.
Proof.
  intros Hx Hf Hd Hn HF K0 B0 H0 H1 Hr. unfold FeedForward, ndim. rewrite Hx.
  cbn [length Nat.eqb assert_ mbind result_bind].
  read_FeedForward_config. rewrite Hf, Hd. cbn [mbind result_bind].
  destruct (Dense_shape F (Some float32) vars _ x B L n Hx Hn HF eq_refl K0 B0)
    as (y0 & -> & _).
  cbn [mbind result_bind]. now rewrite Dropout_no_rng.
Qed.

Lemma FeedForward_needs_dropout_rng_witness :
  FeedForward Config_defaults feed_forward_256 []
              (full [1; 2; 256] (Fin 0)) false
  = Raise InvalidRngError.
Proof.
  apply (FeedForward_needs_dropout_rng Config_defaults feed_forward_256 []
           (full [1; 2; 256] (Fin 0)) 1 2 256 512);
    [reflexivity | reflexivity | reflexivity | lia | lia
    | apply zero_variables_has_param; reflexivity
    | apply zero_variables_has_param; reflexivity
    | cbn; lra | cbn; lra | reflexivity].
Defined.

(** X12.  With [dropout_rate = 0] training mode is deterministic mode:
    [FeedForward] returns the same result, value or exception, with
    either flag, and whether or not a random stream is given. *)
Theorem FeedForward_rate_0 (config : Config)
    (p : list string -> option (ndarray xreal))
    (rng rng' : option (list string -> list nat -> bool))
    (path : list string) (x : ndarray xreal) (deterministic : bool) :
  dropout_rate config = 0%R ->
  FeedForward config (Variables p rng) path x deterministic
  = FeedForward config (Variables p rng') path x true.
Proof.
  intros H0. unfold FeedForward.
  replace (attr_float config "dropout_rate") with (Ok (dropout_rate config))
    by reflexivity.
  rewrite H0.
  apply bind_congr; [reflexivity|intros _].
  apply bind_congr; [reflexivity|intros ff].
  apply bind_congr; [reflexivity|intros dt].
  apply bind_congr; [reflexivity|intros y0].
  cbn [mbind result_bind]. rewrite !Dropout_rate_0. cbn [mbind result_bind].
  apply bind_congr; [reflexivity|intros e].
  apply bind_congr; [reflexivity|intros y1].
  now rewrite !Dropout_rate_0.
Qed.

Lemma FeedForward_rate_0_witness :
  FeedForward (with_dropout_rate 0)
    (Variables (params feed_forward_256) None) []
    (full [1; 2; 256] (Fin 0)) false
  = FeedForward (with_dropout_rate 0)
    (Variables (params feed_forward_256) None) []
    (full [1; 2; 256] (Fin 0)) true.
Proof.
  apply (FeedForward_rate_0 (with_dropout_rate 0) (params feed_forward_256)
           None None [] (full [1; 2; 256] (Fin 0)) false).
  reflexivity.
Defined.

(** X13.  With [dropout_rate = 1] in training mode, under
    [dtype = float32] with positive widths, [FeedForward] needs no random
    stream and returns zeros whatever its input and parameters hold:
    flax's dropout returns [zeros_like] at rate 1. *)
Theorem FeedForward_rate_1 (config : Config) (vars : variables)
    (path : list string) (x : ndarray xreal) (B L n E F : nat) :
  shape x = [B; L; n] ->
  embed_dim config = Z.of_nat E ->
  ff_dim config = Z.of_nat F ->
  dtype config = float32 ->
  0 < n -> 0 < E -> 0 < F ->
  dropout_rate config = 1%R ->
  has_param vars ((path ++ ["Dense_0"]) ++ ["kernel"]) [n; F] ->
  has_param vars ((path ++ ["Dense_0"]) ++ ["bias"]) [F] ->
  has_param vars ((path ++ ["Dense_1"]) ++ ["kernel"]) [F; E] ->
  has_param vars ((path ++ ["Dense_1"]) ++ ["bias"]) [E] ->
  exists y, FeedForward config vars path x false = Ok y /\
    shape y = [B; L; E] /\
    forall idx, item y idx = Fin 0.
Proof.
  intros Hx He Hf Hd Hn HE HF H1 K0 B0 K1 B1. unfold FeedForward, ndim.
  rewrite Hx.
  cbn [length Nat.eqb assert_ mbind result_bind].
  read_FeedForward_config. rewrite He, Hf, Hd, H1. cbn [mbind result_bind].
  destruct (Dense_shape F (Some float32) vars _ x B L n Hx Hn HF eq_refl K0 B0)
    as (y0 & -> & Hy0).
  cbn [mbind result_bind]. rewrite Dropout_rate_1. cbn [mbind result_bind].
  cbn [amap shape]. rewrite Hy0.
  destruct (Dense_shape E (Some float32) vars (path ++ ["Dense_1"])
              (full [B; L; F] (Fin 0)) B L F eq_refl HF HE eq_refl K1 B1)
    as (y1 & -> & Hy1).
  cbn [mbind result_bind]. rewrite Dropout_rate_1. cbn [mbind result_bind].
  eexists. split; [reflexivity|]. split; [exact Hy1|]. reflexivity.
Qed.

Lemma FeedForward_rate_1_witness :
  exists y, FeedForward (with_dropout_rate 1) feed_forward_256 []
              (full [1; 2; 256] (Fin 5)) false = Ok y /\
    shape y = [1; 2; 256] /\
    forall idx, item y idx = Fin 0.
Proof.
  apply (FeedForward_rate_1 (with_dropout_rate 1) feed_forward_256 []
           (full [1; 2; 256] (Fin 5)) 1 2 256 256 512);
    [reflexivity | reflexivity | reflexivity | reflexivity | lia | lia | lia
    | reflexivity
    | apply zero_variables_has_param; reflexivity
    | apply zero_variables_has_param; reflexivity
    | apply zero_variables_has_param; reflexivity
    | apply zero_variables_has_param; reflexivity].
Defined.

(* ===================================================================== *)
(** ** Further properties: the masked softmax *)
(* ===================================================================== *)

Lemma attention_weights_masked_softmax config q k mask :
  attention_weights config q k mask
  = attention_scores config q k ≫= (fun s => masked_softmax config s mask).
Proof. reflexivity. Qed.

Lemma masked_softmax_item config s m B H Sq Sk :
  shape s = [B; H; Sq; Sk] -> shape m = [B; 1; Sq; Sk] ->
  dtype config = float32 ->
  exists a, masked_softmax config s (Some m) = Ok a /\
    shape a = [B; H; Sq; Sk] /\
    forall b h i j, b < B -> h < H -> i < Sq -> j < Sk ->
      item a [b; h; i; j]
      = softmax_row Sk
          (fun c => if truthy (item m [b; 0; i; c])
                    then item s [b; h; i; c] else NInf) j.
Proof.
  intros Hs Hm Hd. unfold masked_softmax.
  destruct (where_heads m s B H Sq Sk Hm Hs) as (w & -> & Hws & Hwi).
  cbn [mbind result_bind].
  destruct (softmax_item w B H Sq Sk Hws) as (p & -> & Hps & Hpi).
  cbn [mbind result_bind].
  replace (attr_dtype config "dtype") with (Ok (dtype config)) by reflexivity.
  rewrite Hd. cbn [mbind result_bind].
  eexists. split; [reflexivity|]. split; [exact Hps|].
  intros b h i j Hb Hh Hi Hj. cbn [item amap astype]. rewrite Hpi.
  apply softmax_row_ext; [|exact Hj].
  intros c Hc. now rewrite Hwi by assumption.
Qed.

Lemma rsum_only_first n u :
  (forall j, 0 < j -> j < n -> u j = 0%R) -> 0 < n -> rsum n u = u 0.
Proof.
  induction n as [|n IH]; intros Hz Hn; [lia|].
  rewrite rsum_S. destruct n as [|n].
  - unfold rsum. cbn. ring.
  - rewrite IH by (try lia; intros j H0 Hj; apply Hz; lia).
    rewrite (Hz (S n)) by lia. ring.
Qed.

(** X8.  Under the mask [GPT2] builds from a batch whose rows do not
    start with the padding token, the masking and softmax lines of the
    attention give the first query position of every row and head weight
    exactly 1 on the first key and 0 on every other key, whatever the
    scores are, provided the score of position 0 against itself is
    finite: the other scores of that row, finite or not, are replaced by
    [-inf] before the softmax. *)
Theorem first_position_attends_to_itself (config : Config) (src : ndarray Z)
    (s : ndarray xreal) (B H L : nat) :
  shape src = [B; L] ->
  shape s = [B; H; L; L] ->
  dtype config = float32 ->
  (forall b, b < B -> item src [b; 0] <> pad_id config) ->
  (forall b h, b < B -> h < H -> is_fin (item s [b; h; 0; 0])) ->
  exists m a,
    decoder_mask_of config src = Ok m /\
    masked_softmax config s (Some m) = Ok a /\
    forall b h j, b < B -> h < H -> j < L ->
      item a [b; h; 0; j] = Fin (if j =? 0 then 1 else 0).
Proof.
  intros Hs Hss Hd Hpad Hfin0.
  destruct (decoder_mask_truthy config src B L Hs) as (m & Hm & Hms & Hmi).
  destruct (masked_softmax_item config s m B H L L Hss Hms Hd)
    as (a & Ha & _ & Hai).
  exists m, a. split; [exact Hm|]. split; [exact Ha|].
  intros b h j Hb Hh Hj.
  assert (HL : 0 < L) by lia.
  set (row := fun c => if truthy (item m [b; 0; 0; c])
                       then item s [b; h; 0; c] else NInf).
  assert (Hrow0 : is_fin (row 0)).
  { unfold row.
    replace (truthy (item m [b; 0; 0; 0])) with true; [now apply Hfin0|].
    symmetry. apply Hmi; [assumption|assumption|assumption|].
    split; [lia|now apply Hpad]. }
  assert (Hrest : forall c, 0 < c -> c < L -> row c = NInf).
  { intros c H0 Hc. unfold row.
    destruct (truthy (item m [b; 0; 0; c])) eqn:Et; [|reflexivity].
    apply (Hmi b 0 c Hb HL Hc) in Et. lia. }
  assert (Hmasked : masked_row L row).
  { intros c Hc. destruct c as [|c]; [now right|left; apply Hrest; lia]. }
  destruct (softmax_row_stochastic L row Hmasked) as (Hw & Hsum).
  { exists 0. split; [exact HL|exact Hrow0]. }
  set (w := fun c => match softmax_row L row c with Fin r => r | _ => 0%R end).
  assert (Hwf : forall c, c < L -> softmax_row L row c = Fin (w c)).
  { intros c Hc. unfold w. destruct (Hw c Hc) as (x & -> & _). reflexivity. }
  assert (Hzero : forall c, 0 < c -> c < L -> w c = 0%R).
  { intros c H0 Hc. unfold w. destruct (Hw c Hc) as (x & -> & _ & Hz).
    apply Hz. now apply Hrest. }
  rewrite (xsum_Fin L _ w Hwf) in Hsum. injection Hsum as Hsum.
  rewrite (rsum_only_first L w Hzero HL) in Hsum.
  rewrite (Hai b h 0 j Hb Hh HL Hj). fold row. rewrite (Hwf j Hj). f_equal.
  destruct j as [|j]; [exact Hsum|]. cbn [Nat.eqb]. apply Hzero; lia.
Qed.

Lemma first_position_attends_to_itself_witness :
  exists m a,
    decoder_mask_of Config_defaults (tokens [[1; 2; 3]%Z]) = Ok m /\
    masked_softmax Config_defaults
      (NDArray [1; 32; 3; 3]
         (fun idx => if nth 3 idx 0 =? 0 then Fin 2 else PInf))
      (Some m) = Ok a /\
    forall b h j, b < 1 -> h < 32 -> j < 3 ->
      item a [b; h; 0; j] = Fin (if j =? 0 then 1 else 0).
Proof.
  apply (first_position_attends_to_itself Config_defaults
           (tokens [[1; 2; 3]%Z])
           (NDArray [1; 32; 3; 3]
              (fun idx => if nth 3 idx 0 =? 0 then Fin 2 else PInf))
           1 32 3);
    [reflexivity | reflexivity | reflexivity | | ].
  - intros b Hb. assert (b = 0) by lia. subst b. discriminate.
  - intros b h _ _. now exists 2%R.
Defined.

(* ===================================================================== *)
(** ** Further properties: config.py *)
(* ===================================================================== *)

Lemma name_local x l g v : l !! x = Some v -> name x (Scope l g) = Ok v.
Proof. intros H. unfold name. cbn [locals]. now rewrite H. Qed.

Lemma name_global x l g v :
  l !! x = None -> g !! x = Some v -> name x (Scope l g) = Ok v.
Proof. intros Hl Hg. unfold name. cbn [locals globals]. now rewrite Hl, Hg. Qed.

Lemma name_builtin x sc w :
  builtins !! x = Some w -> exists a, name x sc = Ok a.
Proof.
  intros Hb. unfold name. destruct (locals sc !! x); [eauto|].
  destruct (globals sc !! x); [eauto|]. rewrite Hb. eauto.
Qed.

Lemma subscript_List x l g w :
  l !! "List" = None -> g !! "List" = Some (PClass "typing.List") ->
  builtins !! x = Some w ->
  exists a, subscript (name "List") (name x) (Scope l g) = Ok a.
Proof.
  intros Hl Hg Hb. unfold subscript.
  rewrite (name_global "List" l g _ Hl Hg). cbn [mbind result_bind].
  destruct (name_builtin x (Scope l g) w Hb) as [a ->].
  cbn [mbind result_bind]. eauto.
Qed.

Lemma exec_ann_assign_run s sc v :
  value s sc = Ok v ->
  (exists a, annotation s (Scope (<[target s := v]> (locals sc)) (globals sc))
             = Ok a) ->
  exec_ann_assign s sc
  = Ok (Scope (<[target s := v]> (locals sc)) (globals sc)).
Proof.
  intros Hv [a Ha]. unfold exec_ann_assign. rewrite Hv.
  cbn [mbind result_bind]. now rewrite Ha.
Qed.

(** One statement of the class body under globals that bind [jnp], [Any]
    and [List] as [Hjnp], [HAny] and [HList] say. *)
Ltac class_body_run Hjnp HAny HList :=
  lazymatch goal with
  | |- mbind _ (exec_ann_assign (AnnAssign ?t ?ann ?val) ?sc) = _ =>
      let v :=
        lazymatch val with
        | attribute (name "jnp") "int16" => constr:(PDType int16)
        | attribute (name "jnp") "float32" => constr:(PDType float32)
        | floordiv _ _ => constr:(PInt (256 / 32))
        | int_ ?z => constr:(PInt z)
        | float_ ?r => constr:(PFloat r)
        | str_ ?s => constr:(PStr s)
        | const ?w => constr:(w)
        end in
      rewrite (exec_ann_assign_run (AnnAssign t ann val) sc v);
      [ cbn [mbind result_bind target locals globals]
      | cbn [value];
        lazymatch val with
        | attribute _ _ =>
            unfold attribute;
            erewrite (name_global "jnp");
            [idtac | vm_compute; reflexivity | exact Hjnp];
            reflexivity
        | floordiv _ _ => vm_compute; reflexivity
        | _ => reflexivity
        end
      | cbn [annotation target locals globals];
        lazymatch ann with
        | name "Any" =>
            eexists; apply name_global;
            [vm_compute; reflexivity | exact HAny]
        | name _ => eapply name_builtin; reflexivity
        | subscript _ _ =>
            eapply subscript_List;
            [vm_compute; reflexivity | exact HList | reflexivity]
        end ]
  end.

(** X22.  With [jnp], [Any] and [List] bound as the class body
    presupposes ([jax.numpy], [typing.Any], [typing.List]) and whatever
    else the globals hold, the class body of [Config] runs to its end,
    and the defaults it binds are those of [Config_defaults]: [id_dtype]
    is [int16], [dtype] is [float32], and [q_dim] and [v_dim] are the
    class-level [256 // 32 = 8], computed once from the defaults of
    [embed_dim] and [num_heads]. *)
Theorem Config_body_binds_the_defaults (g : gmap string pyval) :
  g !! "jnp" = Some (PModule "jax.numpy") ->
  g !! "Any" = Some (PClass "typing.Any") ->
  g !! "List" = Some (PClass "typing.List") ->
  exists sc',
    exec_body Config_body (Scope ∅ g) = Ok sc' /\
    Config_new (locals sc') = Ok Config_defaults.
Proof.
  intros Hjnp HAny HList. eexists. split.
  - unfold Config_body. cbn [exec_body].
    do 28 class_body_run Hjnp HAny HList.
    reflexivity.
  - reflexivity.
Qed.

Lemma Config_body_binds_the_defaults_witness :
  exists sc',
    exec_body Config_body (Scope ∅ with_jnp_Any_List) = Ok sc' /\
    Config_new (locals sc') = Ok Config_defaults.
Proof.
  apply (Config_body_binds_the_defaults with_jnp_Any_List); reflexivity.
Defined.

(* ===================================================================== *)
(** ** Further properties: the embedding *)
(* ===================================================================== *)

Lemma Int_part_small r : (0 <= r < 1)%R -> Int_part r = 0%Z.
Proof.
  intros [H0 H1]. unfold Int_part.
  rewrite <- (tech_up r 1); [reflexivity|cbn; lra|cbn; lra].
Qed.

Lemma Rtrunc_small r : (-1 < r < 1)%R -> Rtrunc r = 0%Z.
Proof.
  intros [H0 H1]. unfold Rtrunc. destruct (Rlt_dec r 0).
  - rewrite Int_part_small by lra. reflexivity.
  - apply Int_part_small. lra.
Qed.

Lemma astype_int16_small r : (-1 < r < 1)%R -> astype int16 (Fin r) = Fin 0.
Proof.
  intros H. unfold astype, to_int. rewrite (Rtrunc_small r H). reflexivity.
Qed.

(** X20.  [GPT2] builds its embedding with [dtype=config.id_dtype].
    Under the default [id_dtype = int16], with [dtype = float32] for the
    table and a non-empty vocabulary, the table is cast to 16-bit
    integers before the lookup: the embedding of an in-range token is the
    row of the table truncated toward zero, and a table entry strictly
    between -1 and 1 contributes exactly 0. *)
Theorem GPT2_embedding_is_truncated (config : Config) (vars : variables)
    (src : ndarray Z) (table : ndarray xreal) (B L V E : nat) :
  shape src = [B; L] ->
  vocab_size config = Z.of_nat V ->
  embed_dim config = Z.of_nat E ->
  id_dtype config = int16 ->
  dtype config = float32 ->
  0 < V ->
  params vars ["Embed_0"; "embedding"] = Some table ->
  shape table = [V; E] ->
  exists x,
    Embed (vocab_size config) (embed_dim config) (id_dtype config)
          (dtype config) vars ["Embed_0"] src = Ok x /\
    shape x = [B; L; E] /\
    forall b t c, (0 <= item src [b; t] < Z.of_nat V)%Z ->
      item x [b; t; c]
      = of_Z (to_int 16 (item table [Z.to_nat (item src [b; t]); c])) /\
      forall r, item table [Z.to_nat (item src [b; t]); c] = Fin r ->
                (-1 < r < 1)%R -> item x [b; t; c] = Fin 0.
Proof.
  intros Hs Hv He Hd Hpd HV Hp Ht. rewrite Hv, He, Hd, Hpd. unfold Embed.
  rewrite !as_dim_of_nat. cbn [mbind result_bind app].
  unfold param_init. rewrite Hp. cbn [normal mbind result_bind].
  rewrite decide_True by exact Ht.
  assert (Hx : forall b t c, (0 <= item src [b; t] < Z.of_nat V)%Z ->
            (if V =? 1
             then if (item src [b; t] =? 0)%Z
                  then astype int16 (item table [0; c]) else NaN
             else
               let tok' := if (item src [b; t] <? 0)%Z
                           then (item src [b; t] + Z.of_nat V)%Z
                           else item src [b; t] in
               if ((0 <=? tok') && (tok' <? Z.of_nat V))%Z
               then astype int16 (item table [Z.to_nat tok'; c])
               else fill_value int16)
            = astype int16 (item table [Z.to_nat (item src [b; t]); c])).
  { intros b t c [H0 H1]. destruct (Nat.eqb_spec V 1) as [->|_].
    - assert (item src [b; t] = 0%Z) as -> by lia. reflexivity.
    - cbv zeta. destruct (Z.ltb_spec (item src [b; t]) 0); [lia|].
      destruct (Z.leb_spec 0 (item src [b; t])); [|lia].
      destruct (Z.ltb_spec (item src [b; t]) (Z.of_nat V)); [|lia].
      reflexivity. }
  destruct (Nat.eqb_spec V 1) as [HV1|HV1].
  - eexists. split; [reflexivity|]. split; [now rewrite Hs|].
    intros b t c Hr. specialize (Hx b t c Hr).
    destruct (Nat.eqb_spec V 1) as [_|]; [|contradiction].
    split; [etransitivity; [|exact Hx]; reflexivity|].
    intros r Hr' Hb. rewrite <- (astype_int16_small r Hb), <- Hr'.
    etransitivity; [|exact Hx]. reflexivity.
  - destruct (Nat.eqb_spec V 0); [lia|].
    eexists. split; [reflexivity|]. split; [now rewrite Hs|].
    intros b t c Hr. specialize (Hx b t c Hr).
    destruct (Nat.eqb_spec V 1) as [|_]; [contradiction|].
    split; [etransitivity; [|exact Hx]; reflexivity|].
    intros r Hr' Hb. rewrite <- (astype_int16_small r Hb), <- Hr'.
    etransitivity; [|exact Hx]. reflexivity.
Qed.

Lemma GPT2_embedding_is_truncated_witness :
  exists x,
    Embed (vocab_size Config_defaults) (embed_dim Config_defaults)
          (id_dtype Config_defaults) (dtype Config_defaults)
          (Variables (fun path => Some (full [Z.to_nat 8000; 256] (Fin (1 / 2))))
                     None)
          ["Embed_0"] (tokens [[1; 2]%Z]) = Ok x /\
    shape x = [1; 2; 256] /\
    forall b t c,
      (0 <= item (tokens [[1; 2]%Z]) [b; t] < Z.of_nat (Z.to_nat 8000))%Z ->
      item x [b; t; c]
      = of_Z (to_int 16
                (item (full [Z.to_nat 8000; 256] (Fin (1 / 2)))
                      [Z.to_nat (item (tokens [[1; 2]%Z]) [b; t]); c])) /\
      forall r,
        item (full [Z.to_nat 8000; 256] (Fin (1 / 2)))
             [Z.to_nat (item (tokens [[1; 2]%Z]) [b; t]); c] = Fin r ->
        (-1 < r < 1)%R -> item x [b; t; c] = Fin 0.
Proof.
  apply (GPT2_embedding_is_truncated Config_defaults
           (Variables (fun path => Some (full [Z.to_nat 8000; 256] (Fin (1 / 2))))
                      None)
           (tokens [[1; 2]%Z]) (full [Z.to_nat 8000; 256] (Fin (1 / 2)))
           1 2 (Z.to_nat 8000) 256);
    first [reflexivity | apply Nat2Z.inj_lt; rewrite Z2Nat.id; lia].
Defined.
